(** * CVX-Core validators: conformance algebra, loader and orchestrator

    A shallow embedding of the Python sources

    - [validators/common/spec_loader.py]   (catalog of atom contracts),
    - [validators/python/validate_cvxpy.py] (conformance checks against cvxpy),
    - [validators/run_all.py]               (cross-language runner),

    together with the properties the specification states about them.

    Conventions.  A Python [dict] that is only looked up by key is a
    [gmap]; a [dict] that is iterated (the parsed YAML mappings, [ATOM_MAP])
    is an association list in insertion order whose keys are pairwise
    distinct, as in a [dict].  A Python call that may raise returns [exc];
    text written by [print] is returned as a list of lines.  A [str] is a
    [string] of ASCII characters; the statement on what the orchestrator
    makes of the output of a child process carries this as a hypothesis
    ([ascii_text], through [ordinary]). *)

From Stdlib Require Import ZArith Ascii String List Bool Lia.
From Stdlib Require DecimalString DecimalNat DecimalFacts.
From stdpp Require Import base option list strings gmap fin_maps.

Local Open Scope Z_scope.
Local Open Scope string_scope.
Local Open Scope list_scope.

(** ** Exceptions *)

(** The outcome of a Python call: a value, or a raised [Exception] whose
    [str(e)] is [msg]. *)
Inductive exc (A : Type) : Type :=
| Ok (a : A)
| Raise (msg : string).
Arguments Ok {A} a.
Arguments Raise {A} msg.

Definition exc_bind {A B : Type} (m : exc A) (k : A -> exc B) : exc B :=
  match m with
  | Ok a => k a
  | Raise msg => Raise msg
  end.

Notation "x <-! m ; k" := (exc_bind m (fun x => k))
  (at level 20, m at level 100, k at level 200, only parsing).

(** ** Python text *)

(** [str(n)] of a non-negative [int], as an f-string formats it. *)
Definition str_of_nat (n : nat) : string :=
  DecimalString.NilZero.string_of_uint (Nat.to_uint n).

(** [str(z)] of an [int]. *)
Definition str_of_Z (z : Z) : string :=
  if (z <? 0)%Z then "-" +:+ str_of_nat (Z.to_nat (- z))
  else str_of_nat (Z.to_nat z).

(** [c in s]. *)
Fixpoint has_char (c : ascii) (s : string) : bool :=
  match s with
  | EmptyString => false
  | String x rest => Ascii.eqb x c || has_char c rest
  end.

Definition double_quote : ascii := ascii_of_nat 34.
Definition backslash : ascii := ascii_of_nat 92.

(** The hexadecimal digit of [n < 16], in lower case. *)
Definition hex_digit (n : N) : ascii :=
  if (n <? 10)%N then ascii_of_N (48 + n) else ascii_of_N (87 + n).

(** One character inside [repr(s)] when the quote is [q]: the backslash
    and the quote are escaped, TAB, LF and CR have their letter, the other
    control characters are written [\xNN]. *)
Definition repr_char (q c : ascii) : string :=
  let n := N_of_ascii c in
  if Ascii.eqb c backslash then String backslash (String backslash "")
  else if Ascii.eqb c q then String backslash (String q "")
  else if (n =? 9)%N then String backslash "t"
  else if (n =? 10)%N then String backslash "n"
  else if (n =? 13)%N then String backslash "r"
  else if ((n <? 32) || (n =? 127))%N then
    String backslash
      (String "x" (String (hex_digit (n / 16)) (String (hex_digit (n mod 16)) "")))
  else String c "".

Fixpoint repr_body (q : ascii) (s : string) : string :=
  match s with
  | EmptyString => EmptyString
  | String c rest => repr_char q c +:+ repr_body q rest
  end.

(** [repr(s)] of a [str]: single quotes, unless the text has a single
    quote and no double quote. *)
Definition py_repr (s : string) : string :=
  let q := if has_char "'" s && negb (has_char double_quote s)
           then double_quote else "'"%char in
  String q (repr_body q s +:+ String q "").

(** ** Parsed YAML *)

(** What [yaml.safe_load] returns: [None], booleans, integers, strings,
    lists and mappings.  A mapping is the [dict] in insertion order; its
    keys are strings. *)
#[warnings="-register-all"] Inductive yaml : Type :=
| YNull
| YBool (b : bool)
| YInt (n : Z)
| YStr (s : string)
| YList (l : list yaml)
| YMap (items : list (string * yaml)).

(** [d[key]] on the items of a [dict], [None] when the key is absent. *)
Fixpoint dict_lookup {A : Type} (items : list (string * A)) (key : string)
  : option A :=
  match items with
  | [] => None
  | (k, v) :: rest => if String.eqb k key then Some v else dict_lookup rest key
  end.

(** [data.get(key, dflt)] on the items of a [dict]. *)
Definition dict_get (items : list (string * yaml)) (key : string) (dflt : yaml)
  : yaml :=
  match dict_lookup items key with
  | Some v => v
  | None => dflt
  end.

(** [raw == s] for a string literal [s]. *)
Definition yaml_eq_str (raw : yaml) (s : string) : bool :=
  match raw with
  | YStr r => String.eqb r s
  | _ => false
  end.

(** [repr(v)] of a parsed value. *)
Fixpoint yaml_repr (v : yaml) : string :=
  match v with
  | YNull => "None"
  | YBool b => if b then "True" else "False"
  | YInt n => str_of_Z n
  | YStr s => py_repr s
  | YList l =>
      "[" +:+ (fix elements (l : list yaml) : string :=
                 match l with
                 | [] => ""
                 | x :: rest =>
                     match rest with
                     | [] => yaml_repr x
                     | _ :: _ => yaml_repr x +:+ ", " +:+ elements rest
                     end
                 end) l +:+ "]"
  | YMap items =>
      "{" +:+ (fix entries (l : list (string * yaml)) : string :=
                 match l with
                 | [] => ""
                 | (k, x) :: rest =>
                     match rest with
                     | [] => py_repr k +:+ ": " +:+ yaml_repr x
                     | _ :: _ =>
                         py_repr k +:+ ": " +:+ yaml_repr x +:+ ", "
                         +:+ entries rest
                     end
                 end) items +:+ "}"
  end.

(** [type(v).__name__]. *)
Definition type_name (v : yaml) : string :=
  match v with
  | YNull => "NoneType"
  | YBool _ => "bool"
  | YInt _ => "int"
  | YStr _ => "str"
  | YList _ => "list"
  | YMap _ => "dict"
  end.

(** The text of the [AttributeError] for [v.attr]. *)
Definition no_attribute (v : yaml) (attr : string) : string :=
  "'" +:+ type_name v +:+ "' object has no attribute '" +:+ attr +:+ "'".

(** * [validators/common/spec_loader.py] *)

Module Curvature.

Inductive t := CONSTANT | AFFINE | CONVEX | CONCAVE | UNKNOWN.

Definition value (c : t) : string :=
  match c with
  | CONSTANT => "constant"
  | AFFINE => "affine"
  | CONVEX => "convex"
  | CONCAVE => "concave"
  | UNKNOWN => "unknown"
  end.

(** [Curvature(raw)]: the member whose value equals [raw], [ValueError]
    when there is none. *)
Definition of_value (raw : yaml) : exc t :=
  if yaml_eq_str raw "constant" then Ok CONSTANT
  else if yaml_eq_str raw "affine" then Ok AFFINE
  else if yaml_eq_str raw "convex" then Ok CONVEX
  else if yaml_eq_str raw "concave" then Ok CONCAVE
  else if yaml_eq_str raw "unknown" then Ok UNKNOWN
  else Raise (yaml_repr raw +:+ " is not a valid Curvature").

End Curvature.

Module Sign.

Inductive t := NONNEGATIVE | NONPOSITIVE | UNKNOWN | ZERO.

Definition value (s : t) : string :=
  match s with
  | NONNEGATIVE => "nonnegative"
  | NONPOSITIVE => "nonpositive"
  | UNKNOWN => "unknown"
  | ZERO => "zero"
  end.

End Sign.

Module Monotonicity.

Inductive t := INCREASING | DECREASING | NONE.

End Monotonicity.

Module AtomSpec.

(** The dataclass.  Python does not enforce the annotations, so the fields
    that [_parse_atom] copies from the document unchanged hold whatever
    YAML value was there; [dcp_requires = YNull] is Python's [None]. *)
Record t := {
  name : string;
  description : yaml;
  curvature : Curvature.t;
  sign : Sign.t;
  arity : yaml;
  dcp_requires : yaml;
  monotonicity : option Monotonicity.t;
  parameters : yaml;
}.

Definition requires_affine_arg (self : t) : bool :=
  yaml_eq_str (dcp_requires self) "affine_arg".

Definition requires_constant_arg (self : t) : bool :=
  yaml_eq_str (dcp_requires self) "constant_arg".

End AtomSpec.

Module AtomSpecs.

Record t := {
  affine_atoms : gmap string AtomSpec.t;
  convex_atoms : gmap string AtomSpec.t;
  concave_atoms : gmap string AtomSpec.t;
}.

(** [a or b] on two [Optional[AtomSpec]]: an [AtomSpec] is always truthy. *)
Definition or_else (a b : option AtomSpec.t) : option AtomSpec.t :=
  match a with
  | Some s => Some s
  | None => b
  end.

Definition get (self : t) (name : string) : option AtomSpec.t :=
  or_else (or_else (affine_atoms self !! name) (convex_atoms self !! name))
          (concave_atoms self !! name).

(** [{**affine, **convex, **concave}]: a later mapping overrides an earlier
    one; the union of [gmap] prefers its left operand. *)
Definition all_atoms (self : t) : gmap string AtomSpec.t :=
  concave_atoms self ∪ (convex_atoms self ∪ affine_atoms self).

End AtomSpecs.

Module spec_loader.

Definition _parse_curvature (raw : yaml) : exc Curvature.t :=
  match raw with
  | YStr _ => Curvature.of_value raw
  | _ => Ok Curvature.AFFINE
  end.

Definition _parse_sign (raw : yaml) : Sign.t :=
  match raw with
  | YStr s =>
      if String.eqb s "nonnegative" then Sign.NONNEGATIVE
      else if String.eqb s "nonpositive" then Sign.NONPOSITIVE
      else if String.eqb s "unknown" then Sign.UNKNOWN
      else if (String.eqb s "from_value" || String.eqb s "from_attributes"
               || String.eqb s "preserve")%bool then Sign.UNKNOWN
      else Sign.UNKNOWN
  | _ => Sign.UNKNOWN
  end.

Definition _parse_monotonicity (raw : yaml) : option Monotonicity.t :=
  match raw with
  | YNull => None
  | _ =>
      if yaml_eq_str raw "increasing" then Some Monotonicity.INCREASING
      else if yaml_eq_str raw "decreasing" then Some Monotonicity.DECREASING
      else if yaml_eq_str raw "none" then Some Monotonicity.NONE
      else None
  end.

(** [data] is the value of the atom's entry; [.get] on anything but a
    mapping raises [AttributeError]. *)
Definition _parse_atom (name : string) (data : yaml)
    (default_curvature : Curvature.t) : exc AtomSpec.t :=
  match data with
  | YMap items =>
      let curvature_raw :=
        dict_get items "curvature" (YStr (Curvature.value default_curvature)) in
      curvature <-!
        match curvature_raw with
        | YMap _ => Ok default_curvature
        | _ => if negb (yaml_eq_str curvature_raw "preserve")
               then Curvature.of_value curvature_raw
               else Ok default_curvature
        end;
      Ok {| AtomSpec.name := name;
            AtomSpec.description := dict_get items "description" (YStr "");
            AtomSpec.curvature := curvature;
            AtomSpec.sign := _parse_sign (dict_get items "sign" (YStr "unknown"));
            AtomSpec.arity := dict_get items "arity" (YStr "unary");
            AtomSpec.dcp_requires := dict_get items "dcp_requires" YNull;
            AtomSpec.monotonicity :=
              _parse_monotonicity (dict_get items "monotonicity" YNull);
            AtomSpec.parameters := dict_get items "parameters" (YList []) |}
  | _ => Raise (no_attribute data "get")
  end.

(** One of the three loops of [load_specs]:
    [for name, atom_data in group.items(): atoms[name] = _parse_atom(...)]. *)
Fixpoint parse_items (group : list (string * yaml))
    (default_curvature : Curvature.t) (atoms : gmap string AtomSpec.t)
  : exc (gmap string AtomSpec.t) :=
  match group with
  | [] => Ok atoms
  | (name, atom_data) :: rest =>
      spec <-! _parse_atom name atom_data default_curvature;
      parse_items rest default_curvature (<[name := spec]> atoms)
  end.

(** [data.get(key, {}).items()] followed by the loop. *)
Definition parse_group (items : list (string * yaml)) (key : string)
    (default_curvature : Curvature.t) : exc (gmap string AtomSpec.t) :=
  match dict_get items key (YMap []) with
  | YMap group => parse_items group default_curvature ∅
  | other => Raise (no_attribute other "items")
  end.

(** [load_specs], from the document [data] that [yaml.safe_load] returned. *)
Definition load_specs (data : yaml) : exc AtomSpecs.t :=
  match data with
  | YMap items =>
      affine_atoms <-! parse_group items "affine_atoms" Curvature.AFFINE;
      convex_atoms <-! parse_group items "convex_atoms" Curvature.CONVEX;
      concave_atoms <-! parse_group items "concave_atoms" Curvature.CONCAVE;
      Ok {| AtomSpecs.affine_atoms := affine_atoms;
            AtomSpecs.convex_atoms := convex_atoms;
            AtomSpecs.concave_atoms := concave_atoms |}
  | _ => Raise (no_attribute data "get")
  end.

End spec_loader.

(** * [validators/python/validate_cvxpy.py] *)

Module validate_cvxpy.

(** ** The conformance algebra *)

(** What the validator observes of a constructed [cp.Expression]: the
    answers of its six introspection methods. *)
Record Expression := {
  is_convex : bool;
  is_concave : bool;
  is_affine : bool;
  is_constant : bool;
  is_nonneg : bool;
  is_nonpos : bool;
}.

(** The local [actual] of [check_curvature]. *)
Definition curvature_actual (expr : Expression) : string :=
  if is_constant expr then "constant"
  else if is_affine expr then "affine"
  else if is_convex expr && negb (is_concave expr) then "convex"
  else if is_concave expr && negb (is_convex expr) then "concave"
  else "unknown".

Definition check_curvature (expr : Expression) (expected : Curvature.t)
  : bool * string :=
  let actual := curvature_actual expr in
  let passed :=
    match expected with
    | Curvature.CONSTANT => is_constant expr
    | Curvature.AFFINE => is_affine expr
    | Curvature.CONVEX => is_convex expr
    | Curvature.CONCAVE => is_concave expr
    | Curvature.UNKNOWN => true
    end in
  (passed, "expected " +:+ Curvature.value expected +:+ ", got " +:+ actual).

(** The local [actual] of [check_sign]. *)
Definition sign_actual (expr : Expression) : string :=
  if is_nonneg expr && is_nonpos expr then "zero"
  else if is_nonneg expr then "nonnegative"
  else if is_nonpos expr then "nonpositive"
  else "unknown".

Definition check_sign (expr : Expression) (expected : Sign.t) : bool * string :=
  let actual := sign_actual expr in
  let passed :=
    match expected with
    | Sign.NONNEGATIVE => is_nonneg expr
    | Sign.NONPOSITIVE => is_nonpos expr
    | Sign.ZERO => is_nonneg expr && is_nonpos expr
    | Sign.UNKNOWN => true
    end in
  (passed, "expected " +:+ Sign.value expected +:+ ", got " +:+ actual).

(** The flag tuple of the specification, as an [Expression] whose sign
    flags are irrelevant to [check_curvature]. *)
Definition flags (convex concave affine constant : bool) : Expression :=
  {| is_convex := convex; is_concave := concave; is_affine := affine;
     is_constant := constant; is_nonneg := false; is_nonpos := false |}.

Definition sign_flags (nonneg nonpos : bool) : Expression :=
  {| is_convex := false; is_concave := false; is_affine := false;
     is_constant := false; is_nonneg := nonneg; is_nonpos := nonpos |}.

(** ** The cvxpy library *)

(** Arguments the validator hands to an atom: variables ([id] tells the
    fresh variables of one call apart), [cp.sum_squares(x)], [np.eye(n)],
    a shape tuple, and a Python list of operands. *)
#[warnings="-register-all"] Inductive Value : Type :=
| CpVariable (id : string) (shape : list nat) (pos : bool)
| SumSquares (x : Value)
| Eye (n : nat)
| Shape (dims : list nat)
| Operands (xs : list Value).

(** A callable of [ATOM_MAP]: applied to its positional arguments it
    returns an expression, returns [None], or raises. *)
Definition AtomFunc : Type := list Value -> exc (option Expression).

Module cp.

(** The functions of cvxpy that [ATOM_MAP] names ([T] is the [.T]
    attribute behind the [transpose] lambda). *)
Record lib := {
  sum : AtomFunc;
  reshape : AtomFunc;
  T : AtomFunc;
  trace : AtomFunc;
  diag : AtomFunc;
  vstack : AtomFunc;
  hstack : AtomFunc;
  norm1 : AtomFunc;
  norm : AtomFunc;
  norm_inf : AtomFunc;
  abs : AtomFunc;
  pos : AtomFunc;
  neg : AtomFunc;
  maximum : AtomFunc;
  sum_squares : AtomFunc;
  quad_form : AtomFunc;
  quad_over_lin : AtomFunc;
  exp : AtomFunc;
  log : AtomFunc;
  entr : AtomFunc;
  sqrt : AtomFunc;
  minimum : AtomFunc;
}.

End cp.

Record ValidationResult := {
  atom_name : string;
  passed : bool;
  checks : list (string * bool * string);
}.

Definition failed_checks (self : ValidationResult)
  : list (string * bool * string) :=
  filter (fun c => negb (snd (fst c)) = true) (checks self).

Definition BINARY_ATOMS : list string :=
  ["maximum"; "minimum"; "quad_form"; "quad_over_lin"].

Definition MATRIX_ATOMS : list string := ["trace"; "transpose"; "diag"].

(** [name in S] for a set of strings. *)
Definition mem (name : string) (S : list string) : bool :=
  existsb (String.eqb name) S.

Definition create_test_variable (atom_name : string) : Value :=
  if mem atom_name MATRIX_ATOMS then CpVariable "x" [3; 3]%nat false
  else CpVariable "x" [5]%nat false.

(** Returns the expression ([None] when the construction raised) and the
    lines printed. *)
Definition create_test_expression (atom_name : string) (atom_func : AtomFunc)
  : option Expression * list string :=
  let x := create_test_variable atom_name in
  let built :=
    if String.eqb atom_name "quad_form" then
      let P := Eye 5 in
      atom_func [x; P]
    else if String.eqb atom_name "quad_over_lin" then
      let y := CpVariable "y" [] true in
      let x_small := CpVariable "x_small" [3]%nat false in
      atom_func [x_small; y]
    else if String.eqb atom_name "maximum" then
      let y := CpVariable "y" [5]%nat false in
      atom_func [x; y]
    else if String.eqb atom_name "minimum" then
      let y := CpVariable "y" [5]%nat false in
      atom_func [x; y]
    else if String.eqb atom_name "reshape" then
      let x_flat := CpVariable "x_flat" [6]%nat false in
      atom_func [x_flat; Shape [2; 3]%nat]
    else if String.eqb atom_name "diag" then
      atom_func [x]
    else if String.eqb atom_name "vstack" then
      let y := CpVariable "y" [5]%nat false in
      atom_func [Operands [x; y]]
    else if String.eqb atom_name "hstack" then
      let y := CpVariable "y" [5]%nat false in
      atom_func [Operands [x; y]]
    else
      atom_func [x] in
  match built with
  | Ok expr => (expr, [])
  | Raise e =>
      (None,
       ["  Warning: Could not create expression for " +:+ atom_name +:+ ": "
        +:+ e])
  end.

Section Validator.

(** The imported cvxpy. *)
Variable cvxpy : cp.lib.

Definition ATOM_MAP : list (string * AtomFunc) :=
  [ ("sum", cp.sum cvxpy);
    ("reshape", cp.reshape cvxpy);
    ("transpose", cp.T cvxpy);
    ("trace", cp.trace cvxpy);
    ("diag", cp.diag cvxpy);
    ("vstack", cp.vstack cvxpy);
    ("hstack", cp.hstack cvxpy);
    ("norm1", cp.norm1 cvxpy);
    ("norm2", cp.norm cvxpy);
    ("normInf", cp.norm_inf cvxpy);
    ("abs", cp.abs cvxpy);
    ("pos", cp.pos cvxpy);
    ("neg", cp.neg cvxpy);
    ("maximum", cp.maximum cvxpy);
    ("sum_squares", cp.sum_squares cvxpy);
    ("quad_form", cp.quad_form cvxpy);
    ("quad_over_lin", cp.quad_over_lin cvxpy);
    ("exp", cp.exp cvxpy);
    ("log", cp.log cvxpy);
    ("entropy", cp.entr cvxpy);
    ("sqrt", cp.sqrt cvxpy);
    ("minimum", cp.minimum cvxpy) ].

(** The outer [try] also covers the construction of [convex_arg]; the
    inner one also covers [expr.is_convex()], which raises
    [AttributeError] when [atom_func] returned [None]. *)
Definition check_dcp_with_non_affine (atom_name : string)
    (atom_func : AtomFunc) (spec : AtomSpec.t) : bool * string :=
  if negb (AtomSpec.requires_affine_arg spec) then
    (true, "no affine requirement")
  else
    let x := CpVariable "x" [5]%nat false in
    match cp.sum_squares cvxpy [x] with
    | Raise e => (true, "rejected with: " +:+ e)
    | Ok _ =>
        let convex_arg := SumSquares x in
        if String.eqb atom_name "quad_form" then
          let P := Eye 5 in
          match atom_func [convex_arg; P] with
          | Raise e => (true, "rejected with: " +:+ e)
          | Ok expr => (true, "composition check passed")
          end
        else if mem atom_name BINARY_ATOMS then
          (true, "skipped binary atom")
        else
          match atom_func [convex_arg] with
          | Raise _ => (true, "correctly rejected non-affine")
          | Ok None => (true, "correctly rejected non-affine")
          | Ok (Some expr) =>
              if is_convex expr && negb (is_affine expr) then
                (* pass *)
                (true, "composition check passed")
              else
                (true, "composition check passed")
          end
    end.

(** Returns the result and the lines printed. *)
Definition validate_atom (atom_name : string) (spec : AtomSpec.t)
  : ValidationResult * list string :=
  let checks := [] in
  match dict_lookup ATOM_MAP atom_name with
  | None =>
      let checks :=
        checks ++ [("exists", false,
                    "atom '" +:+ atom_name +:+ "' not mapped to cvxpy")] in
      ({| atom_name := atom_name; passed := false; checks := checks |}, [])
  | Some atom_func =>
      let checks := checks ++ [("exists", true, "atom exists in cvxpy")] in
      let '(expr, out) := create_test_expression atom_name atom_func in
      match expr with
      | None =>
          let checks :=
            checks ++ [("creates_expr", false, "could not create expression")] in
          ({| atom_name := atom_name; passed := false; checks := checks |}, out)
      | Some expr =>
          let checks :=
            checks ++ [("creates_expr", true, "expression created")] in
          let '(curv_passed, curv_msg) :=
            check_curvature expr (AtomSpec.curvature spec) in
          let checks := checks ++ [("curvature", curv_passed, curv_msg)] in
          let '(sign_passed, sign_msg) :=
            check_sign expr (AtomSpec.sign spec) in
          let checks := checks ++ [("sign", sign_passed, sign_msg)] in
          let '(dcp_passed, dcp_msg) :=
            check_dcp_with_non_affine atom_name atom_func spec in
          let checks := checks ++ [("dcp_requirement", dcp_passed, dcp_msg)] in
          let all_passed := forallb (fun c => snd (fst c)) checks in
          ({| atom_name := atom_name; passed := all_passed; checks := checks |},
           out)
      end
  end.

(** The loop of [validate_all] over the keys of [ATOM_MAP]. *)
Fixpoint validate_names (specs : AtomSpecs.t) (names : list string)
  : list ValidationResult * list string :=
  match names with
  | [] => ([], [])
  | atom_name :: rest =>
      match AtomSpecs.get specs atom_name with
      | None => validate_names specs rest
      | Some spec =>
          let '(result, out) := validate_atom atom_name spec in
          let '(results, out') := validate_names specs rest in
          (result :: results, out ++ out')
      end
  end.

Definition validate_all (specs : AtomSpecs.t)
  : list ValidationResult * list string :=
  validate_names specs (map fst ATOM_MAP).

(** The argument [main] gives to [sys.exit], once the specifications are
    loaded: the number of results that did not pass. *)
Definition main (specs : AtomSpecs.t) : nat :=
  let '(results, _) := validate_all specs in
  let failures := filter (fun r => negb (passed r) = true) results in
  length failures.

End Validator.

End validate_cvxpy.

(** * [validators/run_all.py] *)

(** ** The string methods the runner uses *)

(** [c.isspace()] on ASCII: TAB to CR, FS to US, and the space. *)
Definition is_space (c : ascii) : bool :=
  let n := Z.of_N (N_of_ascii c) in
  (((9 <=? n) && (n <=? 13)) || ((28 <=? n) && (n <=? 32)))%Z.

(** [sub in s]. *)
Fixpoint contains (sub s : string) : bool :=
  if String.prefix sub s then true
  else match s with
       | EmptyString => false
       | String _ rest => contains sub rest
       end.

(** [s.split(sep)] for a one-character separator; never empty. *)
Fixpoint split_char (sep : ascii) (s : string) : list string :=
  match s with
  | EmptyString => [EmptyString]
  | String c rest =>
      if Ascii.eqb c sep then EmptyString :: split_char sep rest
      else match split_char sep rest with
           | piece :: pieces => String c piece :: pieces
           | [] => [String c EmptyString]
           end
  end.

Fixpoint lstrip (s : string) : string :=
  match s with
  | EmptyString => EmptyString
  | String c rest => if is_space c then lstrip rest else s
  end.

Fixpoint rstrip (s : string) : string :=
  match s with
  | EmptyString => EmptyString
  | String c rest =>
      match rstrip rest with
      | EmptyString => if is_space c then EmptyString else String c EmptyString
      | kept => String c kept
      end
  end.

(** [s.strip()]. *)
Definition strip (s : string) : string := rstrip (lstrip s).

(** [s.split()]: the maximal runs of non-whitespace characters. *)
Fixpoint split_ws (s : string) : list string :=
  match s with
  | EmptyString => []
  | String c rest =>
      if is_space c then split_ws rest
      else match rest with
           | EmptyString => [String c EmptyString]
           | String c' _ =>
               if is_space c' then String c EmptyString :: split_ws rest
               else match split_ws rest with
                    | tok :: toks => String c tok :: toks
                    | [] => [String c EmptyString]
                    end
           end
  end.

(** [l[-1]] of a non-empty list. *)
Definition last_piece (l : list string) : string := List.last l EmptyString.

Definition digit (c : ascii) : option Z :=
  let n := Z.of_N (N_of_ascii c) in
  if ((48 <=? n) && (n <=? 57))%Z then Some (n - 48) else None.

(** The whitespace that [int] skips around an ASCII literal: TAB to CR
    and the space (not FS to US, which [str.strip] removes). *)
Definition is_int_space (c : ascii) : bool :=
  let n := Z.of_N (N_of_ascii c) in
  (((9 <=? n) && (n <=? 13)) || (n =? 32))%Z.

Fixpoint skip_int_space (s : string) : string :=
  match s with
  | EmptyString => EmptyString
  | String c rest => if is_int_space c then skip_int_space rest else s
  end.

(** The digits of a literal, read up to the first character that is
    neither a digit nor an underscore: the value so far, the number of
    digits, and the rest of the text.  An underscore may only stand
    between two digits ([prev_us]: the last character was one). *)
Fixpoint scan_digits (s : string) (acc : Z) (count : nat) (prev_us : bool)
  : option (Z * nat * string) :=
  match s with
  | EmptyString => if prev_us then None else Some (acc, count, EmptyString)
  | String c rest =>
      match digit c with
      | Some d => scan_digits rest (10 * acc + d) (S count) false
      | None =>
          if Ascii.eqb c "_" then
            if prev_us then None else scan_digits rest acc count true
          else if prev_us then None else Some (acc, count, s)
      end
  end.

(** [sys.int_info.default_max_str_digits]. *)
Definition max_str_digits : nat := 4300.

(** The text of the [ValueError] of [int(s)] for a malformed literal:
    [repr(s)] is cut after 200 characters. *)
Definition invalid_literal (s : string) : string :=
  "invalid literal for int() with base 10: "
  +:+ String.substring 0 200 (py_repr s).

Definition exceeds_limit (count : nat) : string :=
  "Exceeds the limit (4300 digits) for integer string conversion: value has "
  +:+ str_of_nat count
  +:+ " digits; use sys.set_int_max_str_digits() to increase the limit".

(** [int(s)] for a [str] (CPython 3.11): whitespace, an optional sign, the
    digits, whitespace.  The limit on the number of digits is tested
    before the text after the digits is looked at. *)
Definition py_int (s : string) : exc Z :=
  let body := skip_int_space s in
  let '(negative, body) :=
    match body with
    | String "+" rest => (false, rest)
    | String "-" rest => (true, rest)
    | _ => (false, body)
    end in
  match body with
  | String "_" _ => Raise (invalid_literal s)
  | _ =>
      match scan_digits body 0 0 false with
      | None => Raise (invalid_literal s)
      | Some (n, count, rest) =>
          if (max_str_digits <? count)%nat then Raise (exceeds_limit count)
          else if (count =? 0)%nat then Raise (invalid_literal s)
          else
            match skip_int_space rest with
            | EmptyString => Ok (if negative then (- n)%Z else n)
            | String _ _ => Raise (invalid_literal s)
            end
      end
  end.

Module run_all.

Record ValidatorResult := {
  language : string;
  success : bool;
  passed : Z;
  total : Z;
  output : string;
  error : option string;
}.

(** [passed, total = map(int, pieces)]: the items are converted one at a
    time while the two targets, and then the end of the iterator, are
    asked for. *)
Definition unpack_counts (pieces : list string) : exc (Z * Z) :=
  match pieces with
  | [] => Raise "not enough values to unpack (expected 2, got 0)"
  | p1 :: rest1 =>
      a <-! py_int p1;
      match rest1 with
      | [] => Raise "not enough values to unpack (expected 2, got 1)"
      | p2 :: rest2 =>
          b <-! py_int p2;
          match rest2 with
          | [] => Ok (a, b)
          | p3 :: _ =>
              _ <-! py_int p3;
              Raise "too many values to unpack (expected 2)"
          end
      end
  end.

(** The [for line in output.split(...)] loop shared by the three runners;
    [counts] is the current [(passed, total)]. *)
Fixpoint scan_lines (lines : list string) (counts : Z * Z) : exc (Z * Z) :=
  match lines with
  | [] => Ok counts
  | line :: rest =>
      if contains "Validation Results:" line then
        let parts := strip (last_piece (split_char ":" line)) in
        if contains "/" parts then
          match split_ws parts with
          | nums :: _ =>
              counts' <-! unpack_counts (split_char "/" nums);
              scan_lines rest counts'
          | [] => Raise "list index out of range"
          end
        else scan_lines rest counts
      else scan_lines rest counts
  end.

Definition newline : ascii := ascii_of_nat 10.

Definition parse_summary (output : string) : exc (Z * Z) :=
  scan_lines (split_char newline output) (0, 0).

(** What [subprocess.run] did: it returned a [CompletedProcess], or it
    raised [TimeoutExpired], [FileNotFoundError] or another [Exception]
    ([msg] is [str(e)]). *)
Inductive run_outcome :=
| Completed (returncode : Z) (stdout stderr : string)
| TimeoutExpired
| FileNotFoundError (msg : string)
| OtherException (msg : string).

Definition failed (language : string) (msg : string) : ValidatorResult :=
  {| language := language; success := false; passed := 0; total := 0;
     output := ""; error := Some msg |}.

(** The body of the [try] once the process has completed. *)
Definition completed (language : string) (returncode : Z)
    (stdout stderr : string) : exc ValidatorResult :=
  let output := stdout +:+ stderr in
  counts <-! parse_summary output;
  Ok {| language := language; success := (returncode =? 0)%Z;
        passed := fst counts; total := snd counts;
        output := output; error := None |}.

Definition run_python_validator (proc : run_outcome) : ValidatorResult :=
  match proc with
  | Completed returncode stdout stderr =>
      match completed "python/cvxpy" returncode stdout stderr with
      | Ok r => r
      | Raise e => failed "python/cvxpy" e
      end
  | TimeoutExpired => failed "python/cvxpy" "Timeout after 60 seconds"
  | FileNotFoundError e => failed "python/cvxpy" e
  | OtherException e => failed "python/cvxpy" e
  end.

Definition run_typescript_validator (cvxjs_dir : string)
    (cvxjs_dir_exists : bool) (proc : run_outcome) : ValidatorResult :=
  if negb cvxjs_dir_exists then
    failed "typescript/cvxjs" ("cvxjs directory not found at " +:+ cvxjs_dir)
  else
    match proc with
    | Completed returncode stdout stderr =>
        match completed "typescript/cvxjs" returncode stdout stderr with
        | Ok r => r
        | Raise e => failed "typescript/cvxjs" e
        end
    | FileNotFoundError _ =>
        failed "typescript/cvxjs"
               "npx/tsx not found. Install with: npm install -g tsx"
    | TimeoutExpired => failed "typescript/cvxjs" "Timeout after 60 seconds"
    | OtherException e => failed "typescript/cvxjs" e
    end.

Definition run_rust_validator (rust_dir : string) (rust_dir_exists : bool)
    (proc : run_outcome) : ValidatorResult :=
  if negb rust_dir_exists then
    failed "rust/cvxrust"
           ("Rust validator directory not found at " +:+ rust_dir)
  else
    match proc with
    | Completed returncode stdout stderr =>
        match completed "rust/cvxrust" returncode stdout stderr with
        | Ok r => r
        | Raise e => failed "rust/cvxrust" e
        end
    | FileNotFoundError _ =>
        failed "rust/cvxrust" "cargo not found. Install Rust from rustup.rs"
    | TimeoutExpired => failed "rust/cvxrust" "Timeout after 120 seconds"
    | OtherException e => failed "rust/cvxrust" e
    end.

Inductive Status := PASS | FAIL | ERROR.

(** [if r.error:] -- [None] and the empty string are falsy. *)
Definition truthy (error : option string) : bool :=
  match error with
  | None => false
  | Some EmptyString => false
  | Some (String _ _) => true
  end.

(** The local [status] of the loop of [print_summary]. *)
Definition status (r : ValidatorResult) : Status :=
  let status := if success r then PASS else FAIL in
  if truthy (error r) then ERROR else status.

(** [print_summary]: the rows of the table and the final [all_passed]. *)
Fixpoint print_summary_rows (results : list ValidatorResult) (all_passed : bool)
  : list (string * Status * Z * Z) * bool :=
  match results with
  | [] => ([], all_passed)
  | r :: rest =>
      let all_passed :=
        if truthy (error r) then false
        else if negb (success r) then false
        else all_passed in
      let '(rows, final) := print_summary_rows rest all_passed in
      ((language r, status r, passed r, total r) :: rows, final)
  end.

Definition print_summary (results : list ValidatorResult)
  : list (string * Status * Z * Z) * bool :=
  print_summary_rows results true.

(** The file system and the child processes one run of the script meets. *)
Record World := {
  python_proc : run_outcome;
  cvxjs_dir : string;
  cvxjs_dir_exists : bool;
  typescript_proc : run_outcome;
  rust_dir : string;
  rust_dir_exists : bool;
  rust_proc : run_outcome;
}.

(** The results [main] collects for [args.languages]. *)
Definition main_results (w : World) (languages : list string)
  : list ValidatorResult :=
  let results := [] in
  let languages :=
    if existsb (String.eqb "all") languages
    then ["python"; "typescript"; "rust"] else languages in
  let results :=
    if existsb (String.eqb "python") languages
    then results ++ [run_python_validator (python_proc w)] else results in
  let results :=
    if existsb (String.eqb "typescript") languages
    then results ++ [run_typescript_validator (cvxjs_dir w)
                       (cvxjs_dir_exists w) (typescript_proc w)]
    else results in
  let results :=
    if existsb (String.eqb "rust") languages
    then results ++ [run_rust_validator (rust_dir w) (rust_dir_exists w)
                       (rust_proc w)]
    else results in
  results.

(** The exit status of [main]: [sys.exit(1)] unless every result has
    [success], and 0 when [main] returns. *)
Definition main (w : World) (languages : list string) : Z :=
  let results := main_results w languages in
  if negb (forallb success results) then 1 else 0.

End run_all.

(** * Fixtures *)

Import validate_cvxpy.

(** A cvxpy in which every atom is the same callable. *)
Definition uniform_lib (f : AtomFunc) : cp.lib :=
  {| cp.sum := f; cp.reshape := f; cp.T := f; cp.trace := f; cp.diag := f;
     cp.vstack := f; cp.hstack := f; cp.norm1 := f; cp.norm := f;
     cp.norm_inf := f; cp.abs := f; cp.pos := f; cp.neg := f;
     cp.maximum := f; cp.sum_squares := f; cp.quad_form := f;
     cp.quad_over_lin := f; cp.exp := f; cp.log := f; cp.entr := f;
     cp.sqrt := f; cp.minimum := f |}.

(** Every call returns a convex, nonnegative, non-affine expression: what
    cvxpy answers for [abs(sum_squares(x))]. *)
Definition convex_expr : Expression :=
  {| is_convex := true; is_concave := false; is_affine := false;
     is_constant := false; is_nonneg := true; is_nonpos := false |}.

Definition convex_lib : cp.lib :=
  uniform_lib (fun _ => Ok (Some convex_expr)).

(** Every call raises. *)
Definition raising_lib : cp.lib := uniform_lib (fun _ => Raise "boom").

Definition make_spec (name : string) (curvature : Curvature.t) (sign : Sign.t)
    (dcp_requires : yaml) : AtomSpec.t :=
  {| AtomSpec.name := name; AtomSpec.description := YStr "";
     AtomSpec.curvature := curvature; AtomSpec.sign := sign;
     AtomSpec.arity := YStr "unary"; AtomSpec.dcp_requires := dcp_requires;
     AtomSpec.monotonicity := None; AtomSpec.parameters := YList [] |}.

Definition abs_spec : AtomSpec.t :=
  make_spec "abs" Curvature.CONVEX Sign.NONNEGATIVE (YStr "affine_arg").

(** [neg]: convex, decreasing, declared to need an affine argument. *)
Definition neg_spec : AtomSpec.t :=
  {| AtomSpec.name := "neg"; AtomSpec.description := YStr "";
     AtomSpec.curvature := Curvature.CONVEX;
     AtomSpec.sign := Sign.NONNEGATIVE;
     AtomSpec.arity := YStr "unary";
     AtomSpec.dcp_requires := YStr "affine_arg";
     AtomSpec.monotonicity := Some Monotonicity.DECREASING;
     AtomSpec.parameters := YList [] |}.

(** The composition rule of DCP for a convex argument in place of an
    affine one: the result is convex when the atom is convex and
    increasing, and is not known to be convex otherwise. *)
Definition dcp_convex_of_convex (spec : AtomSpec.t) : bool :=
  match AtomSpec.curvature spec, AtomSpec.monotonicity spec with
  | Curvature.CONVEX, Some Monotonicity.INCREASING => true
  | _, _ => false
  end.

Definition sum_spec : AtomSpec.t :=
  make_spec "sum" Curvature.AFFINE Sign.UNKNOWN YNull.

Definition sum_only_specs : AtomSpecs.t :=
  {| AtomSpecs.affine_atoms := {["sum" := sum_spec]};
     AtomSpecs.convex_atoms := ∅;
     AtomSpecs.concave_atoms := ∅ |}.

(** A catalog with [sum] in the affine and [abs] in the convex partition. *)
Definition sum_and_abs_specs : AtomSpecs.t :=
  {| AtomSpecs.affine_atoms := {["sum" := sum_spec]};
     AtomSpecs.convex_atoms := {["abs" := abs_spec]};
     AtomSpecs.concave_atoms := ∅ |}.

Definition log_spec : AtomSpec.t :=
  make_spec "log" Curvature.CONCAVE Sign.UNKNOWN (YStr "affine_arg").

(** A catalog with one atom in each partition. *)
Definition three_specs : AtomSpecs.t :=
  {| AtomSpecs.affine_atoms := {["sum" := sum_spec]};
     AtomSpecs.convex_atoms := {["abs" := abs_spec]};
     AtomSpecs.concave_atoms := {["log" := log_spec]} |}.

(** The names and outcomes of the checks of a result, messages dropped. *)
Definition outcomes (r : ValidationResult) : list (string * bool) :=
  map fst (checks r).

(** A document that declares the atom [x] twice, in the affine and in the
    convex group, and the two contracts the loader makes of it. *)
Definition colliding_doc : yaml :=
  YMap [("affine_atoms", YMap [("x", YMap [])]);
        ("convex_atoms", YMap [("x", YMap [])])].

Definition x_affine : AtomSpec.t :=
  make_spec "x" Curvature.AFFINE Sign.UNKNOWN YNull.

Definition x_convex : AtomSpec.t :=
  make_spec "x" Curvature.CONVEX Sign.UNKNOWN YNull.

Definition colliding_specs : AtomSpecs.t :=
  {| AtomSpecs.affine_atoms := {["x" := x_affine]};
     AtomSpecs.convex_atoms := {["x" := x_convex]};
     AtomSpecs.concave_atoms := ∅ |}.

(** ** Vocabulary of the statements *)

(** Every character of [s] satisfies [P]. *)
Fixpoint all_chars (P : ascii -> bool) (s : string) : bool :=
  match s with
  | EmptyString => true
  | String c rest => P c && all_chars P rest
  end.

(** The text that marks a summary line for the orchestrator. *)
Definition marker : string := "Validation Results:".

(** A [str] of ASCII characters: every character is below 128. *)
Definition is_ascii (c : ascii) : bool := (N_of_ascii c <? 128)%N.

Definition ascii_text (s : string) : Prop := all_chars is_ascii s = true.

(** The scan of [AtomSpecs.get], for the partitions taken in any order:
    the first partition that knows the name answers. *)
Fixpoint lookup_in_order (parts : list (gmap string AtomSpec.t))
    (name : string) : option AtomSpec.t :=
  match parts with
  | [] => None
  | part :: rest => AtomSpecs.or_else (part !! name) (lookup_in_order rest name)
  end.

(** The three partitions of a catalog, in the order [AtomSpecs.get] scans
    them. *)
Definition partitions (specs : AtomSpecs.t) : list (gmap string AtomSpec.t) :=
  [AtomSpecs.affine_atoms specs; AtomSpecs.convex_atoms specs;
   AtomSpecs.concave_atoms specs].

(** An atom entry that the loader accepts: a mapping whose curvature, when
    it has one, is a structured rule, [preserve], or the value of a member
    of [Curvature]. *)
Definition entry_loads (data : yaml) : Prop :=
  exists items,
    data = YMap items
    /\ (dict_lookup items "curvature" = None
        \/ (exists rule, dict_lookup items "curvature" = Some (YMap rule))
        \/ dict_lookup items "curvature" = Some (YStr "preserve")
        \/ (exists c, dict_lookup items "curvature"
                      = Some (YStr (Curvature.value c)))).

(** A group of the document that the loader accepts: absent, or a mapping
    of accepted entries. *)
Definition group_loads (doc : list (string * yaml)) (key : string) : Prop :=
  dict_lookup doc key = None
  \/ exists group,
      dict_lookup doc key = Some (YMap group)
      /\ Forall (fun entry => entry_loads (snd entry)) group.

Definition well_formed (doc : list (string * yaml)) : Prop :=
  group_loads doc "affine_atoms" /\ group_loads doc "convex_atoms"
  /\ group_loads doc "concave_atoms".

(** A document with the one atom [sum], in the affine group. *)
Definition sum_doc : list (string * yaml) :=
  [("affine_atoms",
    YMap [("sum", YMap [("curvature", YStr "affine");
                        ("sign", YStr "preserve")])])].

(** The text of a line after its last colon, without the whitespace
    around it. *)
Definition summary_field (line : string) : string :=
  strip (last_piece (split_char ":" line)).

(** A summary line: it carries the marker, and a slash after its last
    colon. *)
Definition is_summary_line (line : string) : bool :=
  contains marker line && contains "/" (summary_field line).

(** The first word after the last colon of a line. *)
Definition summary_token (line : string) : string :=
  hd EmptyString (split_ws (summary_field line)).

(** The line carries the two integers [counts]: its token is
    [<passed>/<total>], two texts that [int] accepts around one slash. *)
Definition reads_as (line : string) (counts : Z * Z) : Prop :=
  exists a b,
    split_char "/" (summary_token line) = [a; b]
    /\ py_int a = Ok (fst counts) /\ py_int b = Ok (snd counts).

(** Every summary line of the output carries two integers. *)
Definition summary_readable (output : string) : Prop :=
  forall line,
    In line (split_char run_all.newline output) ->
    is_summary_line line = true -> exists counts, reads_as line counts.

(** Some summary line of the output does not carry two integers. *)
Definition summary_unreadable (output : string) : Prop :=
  exists line,
    In line (split_char run_all.newline output)
    /\ is_summary_line line = true
    /\ forall counts, ~ reads_as line counts.

(** The counts that the output reports: those of its last summary line,
    and 0/0 when it has none. *)
Definition last_summary (output : string) (counts : Z * Z) : Prop :=
  (Forall (fun line => is_summary_line line = false)
          (split_char run_all.newline output)
   /\ counts = (0, 0)%Z)
  \/ exists pre line post,
      split_char run_all.newline output = pre ++ line :: post
      /\ is_summary_line line = true
      /\ Forall (fun l => is_summary_line l = false) post
      /\ reads_as line counts.

(** The child process ran to the end with exit code [rc] and every
    summary line of its output carries two integers. *)
Definition ran_with (proc : run_all.run_outcome) (rc : Z) : Prop :=
  exists stdout stderr,
    proc = run_all.Completed rc stdout stderr
    /\ summary_readable (stdout +:+ stderr).

(** The child process ran to the end and a summary line of its output
    does not carry two integers. *)
Definition summary_malformed (proc : run_all.run_outcome) : Prop :=
  exists rc stdout stderr,
    proc = run_all.Completed rc stdout stderr
    /\ summary_unreadable (stdout +:+ stderr).

(** What the statement on the classification supposes of a child
    process: its output is ASCII text, and an exception of
    [subprocess.run] has a text that is not empty. *)
Definition ordinary (proc : run_all.run_outcome) : Prop :=
  match proc with
  | run_all.Completed _ stdout stderr => ascii_text (stdout +:+ stderr)
  | run_all.TimeoutExpired => True
  | run_all.FileNotFoundError msg => msg <> ""
  | run_all.OtherException msg => msg <> ""
  end.

(** The classification of one backend: [r] is the result of a runner whose
    working directory is present iff [dir_present], whose child process
    did [proc]. *)
Definition classified (dir_present : bool)
    (proc : run_all.run_outcome) (r : run_all.ValidatorResult) : Prop :=
  (run_all.status r = run_all.PASS
   <-> dir_present = true /\ ran_with proc 0)
  /\ (run_all.status r = run_all.FAIL
      <-> dir_present = true /\ exists rc, rc <> 0%Z /\ ran_with proc rc)
  /\ (run_all.status r = run_all.ERROR
      <-> dir_present = false
          \/ proc = run_all.TimeoutExpired
          \/ (exists msg, proc = run_all.FileNotFoundError msg)
          \/ (exists msg, proc = run_all.OtherException msg)
          \/ summary_malformed proc)
  /\ (forall rc stdout stderr,
         dir_present = true ->
         proc = run_all.Completed rc stdout stderr ->
         summary_readable (stdout +:+ stderr) ->
         last_summary (stdout +:+ stderr)
                      (run_all.passed r, run_all.total r)).

(** The same classification as a function, as the runners and
    [print_summary] compute it: the directory, then what the process did,
    then the scan, then the exit code. *)
Definition outcome_class (own_handler dir_present : bool)
    (proc : run_all.run_outcome) : run_all.Status :=
  if negb dir_present then run_all.ERROR
  else
    match proc with
    | run_all.Completed rc stdout stderr =>
        match run_all.parse_summary (stdout +:+ stderr) with
        | Ok _ => if (rc =? 0)%Z then run_all.PASS else run_all.FAIL
        | Raise _ => run_all.ERROR
        end
    | run_all.TimeoutExpired => run_all.ERROR
    | run_all.FileNotFoundError msg =>
        if own_handler then run_all.ERROR
        else if String.eqb msg "" then run_all.FAIL else run_all.ERROR
    | run_all.OtherException msg =>
        if String.eqb msg "" then run_all.FAIL else run_all.ERROR
    end.

(** What every result of a runner satisfies: one that has [success]
    carries no error. *)
Definition from_runner (r : run_all.ValidatorResult) : Prop :=
  run_all.success r = true -> run_all.error r = None.

(** A run in which the Python validator exits with code 0 after printing
    a summary line whose counts are not numbers. *)
Definition malformed_summary_world : run_all.World :=
  {| run_all.python_proc :=
       run_all.Completed 0 "CVXPY Validation Results: a/b atoms passed" "";
     run_all.cvxjs_dir := "cvxjs";
     run_all.cvxjs_dir_exists := false;
     run_all.typescript_proc := run_all.TimeoutExpired;
     run_all.rust_dir := "rust";
     run_all.rust_dir_exists := false;
     run_all.rust_proc := run_all.TimeoutExpired |}.

(** Backend A exits 0 with the summary 5/5, backend B exits 3 without a
    summary line, and the third backend times out. *)
Definition scenario_world : run_all.World :=
  {| run_all.python_proc :=
       run_all.Completed 0 "CVXPY Validation Results: 5/5 atoms passed" "";
     run_all.cvxjs_dir := "cvxjs";
     run_all.cvxjs_dir_exists := true;
     run_all.typescript_proc := run_all.Completed 3 "" "crash";
     run_all.rust_dir := "rust";
     run_all.rust_dir_exists := true;
     run_all.rust_proc := run_all.TimeoutExpired |}.

(** * More of the sources *)

(** ** [validate_cvxpy.py]: what the validator prints *)

(** [c * n] for a one-character string [c]. *)
Fixpoint repeat_char (c : ascii) (n : nat) : string :=
  match n with
  | O => EmptyString
  | S n' => String c (repeat_char c n')
  end.

Definition nl : string := String run_all.newline EmptyString.

(** The summary line of [print_results]. *)
Definition summary_line (n_passed total : nat) : string :=
  "CVXPY Validation Results: " +:+ str_of_nat n_passed +:+ "/"
  +:+ str_of_nat total +:+ " atoms passed".

(** The lines [print_results] prints for one failing result. *)
Definition failure_lines (result : ValidationResult) : list string :=
  (nl +:+ "  " +:+ atom_name result +:+ ":")
  :: map (fun c => "    FAIL " +:+ fst (fst c) +:+ ": " +:+ snd c)
         (failed_checks result).

(** [print_results]: the arguments of its [print] calls, in order. *)
Definition print_results (results : list ValidationResult) : list string :=
  let n_passed := length (filter (fun r => passed r = true) results) in
  let total := length results in
  let failures := filter (fun r => negb (passed r) = true) results in
  let successes := filter (fun r => passed r = true) results in
  [nl +:+ repeat_char "=" 60;
   summary_line n_passed total;
   repeat_char "=" 60 +:+ nl]
  ++ match failures with
     | [] => []
     | _ :: _ =>
         ["FAILURES:"; repeat_char "-" 40] ++ flat_map failure_lines failures
     end
  ++ match successes with
     | [] => []
     | _ :: _ =>
         [nl +:+ "PASSED (" +:+ str_of_nat (length successes) +:+ "):";
          repeat_char "-" 40]
         ++ map (fun result => "  " +:+ atom_name result) successes
     end
  ++ [""].

(** The text a sequence of [print] calls writes: each argument and a
    newline. *)
Fixpoint stdout_of (prints : list string) : string :=
  match prints with
  | [] => EmptyString
  | s :: rest => s +:+ String run_all.newline (stdout_of rest)
  end.

(** Everything [main] writes to standard output once the specifications
    are loaded: its own three lines, the warnings of [validate_all], the
    report of [print_results]. *)
Definition main_stdout (cvxpy : cp.lib) (specs : AtomSpecs.t) : string :=
  let '(results, warnings) := validate_all cvxpy specs in
  stdout_of
    (["Loading CVX-Core specifications...";
      "Loaded " +:+ str_of_nat (size (AtomSpecs.all_atoms specs))
      +:+ " atom specifications";
      nl +:+ "Validating cvxpy implementation..."]
     ++ warnings ++ print_results results).

(** ** Vocabulary of the further statements *)

(** No line of the text [s] carries the marker. *)
Definition quiet_text (s : string) : Prop :=
  Forall (fun line => contains marker line = false)
         (split_char run_all.newline s).

(** A decimal digit, a character that is not whitespace, a character that
    is not the capital V with which the marker starts. *)
Definition is_digit (c : ascii) : bool :=
  match digit c with
  | Some _ => true
  | None => false
  end.

Definition not_space (c : ascii) : bool := negb (is_space c).

Definition no_V (c : ascii) : bool := negb (Ascii.eqb c "V").

(** A result whose name and whose failed checks can be printed without a
    capital V. *)
Definition tidy (r : ValidationResult) : Prop :=
  all_chars no_V (atom_name r) = true
  /\ Forall (fun c => snd (fst c) = false ->
                      all_chars no_V (fst (fst c)) = true
                      /\ all_chars no_V (snd c) = true)
            (checks r).

(** The names of the three backends, in the order [main] runs them. *)
Definition backends : list (string * string) :=
  [("python", "python/cvxpy"); ("typescript", "typescript/cvxjs");
   ("rust", "rust/cvxrust")].

(** [Monotonicity.value]. *)
Definition monotonicity_value (m : Monotonicity.t) : string :=
  match m with
  | Monotonicity.INCREASING => "increasing"
  | Monotonicity.DECREASING => "decreasing"
  | Monotonicity.NONE => "none"
  end.

(** * Properties *)

(** ** Conformance algebra *)

(** C1. [check_curvature] decides by the one flag that [expected] names:
    unknown always passes, constant passes iff [is_constant], affine iff
    [is_affine], convex iff [is_convex], concave iff [is_concave]. *)
Theorem check_curvature_decision_rule (expr : Expression) :
  fst (check_curvature expr Curvature.UNKNOWN) = true
  /\ (fst (check_curvature expr Curvature.CONSTANT) = true
      <-> is_constant expr = true)
  /\ (fst (check_curvature expr Curvature.AFFINE) = true
      <-> is_affine expr = true)
  /\ (fst (check_curvature expr Curvature.CONVEX) = true
      <-> is_convex expr = true)
  /\ (fst (check_curvature expr Curvature.CONCAVE) = true
      <-> is_concave expr = true).
Proof. unfold check_curvature; cbn [fst]. intuition. Qed.

(** The diagnostic names the expected and the observed classification. *)
Lemma check_curvature_message (expr : Expression) (expected : Curvature.t) :
  snd (check_curvature expr expected)
  = "expected " +:+ Curvature.value expected +:+ ", got "
    +:+ curvature_actual expr.
Proof. reflexivity. Qed.

(** The two end-to-end cases of the specification: [sum], declared
    affine with unknown sign, and [abs], declared convex and nonnegative. *)
Lemma check_sum_and_abs :
  check_curvature (flags true true true false) Curvature.AFFINE
  = (true, "expected affine, got affine")
  /\ fst (check_sign (flags true true true false) Sign.UNKNOWN) = true
  /\ check_curvature convex_expr Curvature.CONVEX
     = (true, "expected convex, got convex")
  /\ check_sign convex_expr Sign.NONNEGATIVE
     = (true, "expected nonnegative, got nonnegative").
Proof. repeat split; reflexivity. Qed.

(** C2. [check_sign]: zero passes iff both flags hold, nonnegative iff
    [is_nonneg], nonpositive iff [is_nonpos], unknown always; so
    (nonneg, not nonpos) fails the zero check and (nonneg, nonpos) passes. *)
Theorem check_sign_decision_rule (expr : Expression) :
  (fst (check_sign expr Sign.ZERO) = true
   <-> is_nonneg expr = true /\ is_nonpos expr = true)
  /\ (fst (check_sign expr Sign.NONNEGATIVE) = true <-> is_nonneg expr = true)
  /\ (fst (check_sign expr Sign.NONPOSITIVE) = true <-> is_nonpos expr = true)
  /\ fst (check_sign expr Sign.UNKNOWN) = true
  /\ fst (check_sign (sign_flags true false) Sign.ZERO) = false
  /\ fst (check_sign (sign_flags true true) Sign.ZERO) = true.
Proof.
  unfold check_sign; cbn [fst].
  rewrite andb_true_iff. intuition.
Qed.

(** The classification [affine] is exactly: affine flag set, constant flag
    clear. *)
Lemma curvature_actual_affine (expr : Expression) :
  curvature_actual expr = "affine"
  <-> is_affine expr = true /\ is_constant expr = false.
Proof.
  unfold curvature_actual.
  destruct (is_constant expr), (is_affine expr), (is_convex expr),
    (is_concave expr); cbn; split; intros H; try discriminate;
    try (destruct H; discriminate); auto.
Qed.

(** C3, as stated, fails: flags that say affine but neither convex nor
    concave are classified affine and fail both checks. *)
Lemma affine_flags_fail_convex_check :
  let expr := flags false false true false in
  is_affine expr = true /\ is_constant expr = false
  /\ curvature_actual expr = "affine"
  /\ fst (check_curvature expr Curvature.CONVEX) = false
  /\ fst (check_curvature expr Curvature.CONCAVE) = false.
Proof. cbn. repeat split; reflexivity. Qed.

(** C3, amended.  When the flags are coherent (an expression reported
    affine is also reported convex and concave), an expression classified
    affine passes the convex check and the concave check. *)
Theorem affine_passes_convex_and_concave (expr : Expression) :
  curvature_actual expr = "affine" ->
  (is_affine expr = true -> is_convex expr = true /\ is_concave expr = true) ->
  fst (check_curvature expr Curvature.CONVEX) = true
  /\ fst (check_curvature expr Curvature.CONCAVE) = true.
Proof.
  intros Hclass Hcoherent.
  apply curvature_actual_affine in Hclass as [Haff _].
  destruct (Hcoherent Haff) as [Hcvx Hccv].
  unfold check_curvature; cbn [fst]. auto.
Qed.

Lemma affine_passes_convex_and_concave_witness :
  curvature_actual (flags true true true false) = "affine"
  /\ fst (check_curvature (flags true true true false) Curvature.CONVEX) = true
  /\ fst (check_curvature (flags true true true false) Curvature.CONCAVE)
     = true.
Proof.
  split; [reflexivity |].
  apply (affine_passes_convex_and_concave (flags true true true false)).
  - reflexivity.
  - intros _. split; reflexivity.
Defined.

(** ** DCP composition check *)

(** The check has no failing path: whatever cvxpy does with the probe. *)
Lemma check_dcp_always_passes (cvxpy : cp.lib) (atom_name : string)
    (atom_func : AtomFunc) (spec : AtomSpec.t) :
  fst (check_dcp_with_non_affine cvxpy atom_name atom_func spec) = true.
Proof.
  unfold check_dcp_with_non_affine.
  repeat match goal with
         | |- context [if ?b then _ else _] => destruct b
         | |- context [match ?m with Ok _ => _ | Raise _ => _ end] =>
             destruct m
         | |- context [match ?o with Some _ => _ | None => _ end] =>
             destruct o
         end; reflexivity.
Qed.

(** C4, as stated, fails.  [neg] is convex and decreasing, so DCP does
    not make [neg(sum_squares(x))] convex; a backend that accepts the
    composition and reports it convex and not affine asserts convexity
    against DCP, and the check passes all the same. *)
Lemma check_dcp_passes_against_dcp :
  AtomSpec.requires_affine_arg neg_spec = true
  /\ dcp_convex_of_convex neg_spec = false
  /\ cp.neg convex_lib [SumSquares (CpVariable "x" [5]%nat false)]
     = Ok (Some convex_expr)
  /\ is_convex convex_expr && negb (is_affine convex_expr) = true
  /\ check_dcp_with_non_affine convex_lib "neg" (cp.neg convex_lib) neg_spec
     = (true, "composition check passed").
Proof. repeat split; reflexivity. Qed.

(** C4, amended.  The composition check always passes; only its message
    tells the cases apart: no affine requirement, the construction of the
    convex argument raised, a binary atom other than [quad_form] is
    skipped, the backend raised or returned nothing (rejected), the
    backend accepted -- whatever curvature it reports for the result. *)
Theorem check_dcp_permissive (cvxpy : cp.lib) (atom_name : string)
    (atom_func : AtomFunc) (spec : AtomSpec.t) :
  let convex_arg := SumSquares (CpVariable "x" [5]%nat false) in
  let result := check_dcp_with_non_affine cvxpy atom_name atom_func spec in
  fst result = true
  /\ (AtomSpec.requires_affine_arg spec = false ->
      snd result = "no affine requirement")
  /\ (AtomSpec.requires_affine_arg spec = true ->
      forall built,
        cp.sum_squares cvxpy [CpVariable "x" [5]%nat false] = Ok built ->
        (atom_name = "quad_form" ->
         (forall e, atom_func [convex_arg; Eye 5] = Raise e ->
                    snd result = "rejected with: " +:+ e)
         /\ (forall r, atom_func [convex_arg; Eye 5] = Ok r ->
                       snd result = "composition check passed"))
        /\ (atom_name <> "quad_form" ->
            mem atom_name BINARY_ATOMS = true ->
            snd result = "skipped binary atom")
        /\ (mem atom_name BINARY_ATOMS = false ->
            (forall e, atom_func [convex_arg] = Raise e ->
                       snd result = "correctly rejected non-affine")
            /\ (atom_func [convex_arg] = Ok None ->
                snd result = "correctly rejected non-affine")
            /\ (forall expr, atom_func [convex_arg] = Ok (Some expr) ->
                             snd result = "composition check passed"))).
Proof.
  cbv zeta. split; [apply check_dcp_always_passes|].
  unfold check_dcp_with_non_affine.
  split.
  - intros ->. reflexivity.
  - intros -> built ->. cbn [negb].
    destruct (String.eqb_spec atom_name "quad_form") as [->|Hq].
    + split; [|split].
      * intros _. split; [intros e -> | intros r ->]; reflexivity.
      * congruence.
      * discriminate.
    + split; [congruence|]. split.
      * intros _ ->. reflexivity.
      * intros ->. split; [|split].
        -- intros e ->. reflexivity.
        -- intros ->. reflexivity.
        -- intros expr ->. destruct (_ && _); reflexivity.
Qed.

(** ** Validation of one atom *)

(** C9.  The checks are recorded in the order exists, creates_expr,
    curvature, sign, dcp_requirement; a failed existence or construction
    check ends the list; once the expression exists the last three checks
    are each the outcome of their own function, whatever the others say;
    and [passed] is the conjunction of the recorded checks. *)
Theorem validate_atom_checks (cvxpy : cp.lib) (atom_name : string)
    (spec : AtomSpec.t) :
  let r := fst (validate_atom cvxpy atom_name spec) in
  passed r = forallb snd (outcomes r)
  /\ match dict_lookup (ATOM_MAP cvxpy) atom_name with
     | None => outcomes r = [("exists", false)]
     | Some atom_func =>
         match fst (create_test_expression atom_name atom_func) with
         | None => outcomes r = [("exists", true); ("creates_expr", false)]
         | Some expr =>
             outcomes r =
               [("exists", true); ("creates_expr", true);
                ("curvature",
                 fst (check_curvature expr (AtomSpec.curvature spec)));
                ("sign", fst (check_sign expr (AtomSpec.sign spec)));
                ("dcp_requirement",
                 fst (check_dcp_with_non_affine cvxpy atom_name atom_func
                        spec))]
         end
     end.
Proof.
  unfold validate_atom.
  destruct (dict_lookup (ATOM_MAP cvxpy) atom_name) as [atom_func|];
    [| split; reflexivity].
  destruct (create_test_expression atom_name atom_func) as [[expr|] out];
    cbn [fst]; [| split; reflexivity].
  destruct (check_curvature expr (AtomSpec.curvature spec)) as [cp cm].
  destruct (check_sign expr (AtomSpec.sign spec)) as [sp sm].
  destruct (check_dcp_with_non_affine cvxpy atom_name atom_func spec)
    as [dp dm].
  split; reflexivity.
Qed.

(** One result can carry several failures at once: an expression that is
    convex and nonnegative, checked against a concave, nonpositive
    contract, fails the curvature check and the sign check. *)
Lemma validate_atom_two_failures :
  outcomes (fst (validate_atom convex_lib "log"
                   (make_spec "log" Curvature.CONCAVE Sign.NONPOSITIVE YNull)))
  = [("exists", true); ("creates_expr", true); ("curvature", false);
     ("sign", false); ("dcp_requirement", true)].
Proof. reflexivity. Qed.

(** One result per name of [ATOM_MAP] that the catalog knows, in the order
    of [ATOM_MAP]: no atom stops the validation of the others. *)
Lemma validate_names_atoms (cvxpy : cp.lib) (specs : AtomSpecs.t)
    (names : list string) :
  map atom_name (fst (validate_names cvxpy specs names))
  = List.filter (fun n => bool_decide (is_Some (AtomSpecs.get specs n))) names.
Proof.
  induction names as [|n names IH]; [reflexivity|].
  cbn [validate_names List.filter].
  destruct (AtomSpecs.get specs n) as [spec|] eqn:Hget.
  - rewrite bool_decide_eq_true_2 by eauto.
    destruct (validate_atom cvxpy n spec) as [r out] eqn:Hr.
    destruct (validate_names cvxpy specs names) as [rs out'].
    cbn [fst map] in *. f_equal; [|exact IH].
    unfold validate_atom in Hr.
    repeat match type of Hr with
           | context [match ?m with _ => _ end] => destruct m
           end; inversion Hr; reflexivity.
  - rewrite bool_decide_eq_false_2 by (intros [? ?]; discriminate).
    exact IH.
Qed.

(** A name found in a [dict] is one of its keys. *)
Lemma dict_lookup_key {A : Type} (items : list (string * A)) (key : string)
    (v : A) :
  dict_lookup items key = Some v -> In key (map fst items).
Proof.
  induction items as [|[k w] items IH]; cbn; [discriminate|].
  destruct (String.eqb_spec k key); auto.
Qed.

(** A failing atom that the catalog knows is counted by [main]. *)
Lemma validate_names_counts_failure (cvxpy : cp.lib) (specs : AtomSpecs.t)
    (names : list string) (n : string) (spec : AtomSpec.t) :
  In n names ->
  AtomSpecs.get specs n = Some spec ->
  passed (fst (validate_atom cvxpy n spec)) = false ->
  (1 <= length (filter (fun r => negb (passed r) = true)
                  (fst (validate_names cvxpy specs names))))%nat.
Proof.
  intros Hin Hget Hfail.
  induction names as [|m names IH]; [destruct Hin|].
  cbn [validate_names].
  destruct (AtomSpecs.get specs m) as [spec'|] eqn:Hm.
  - destruct (validate_atom cvxpy m spec') as [r out] eqn:Hr.
    destruct (validate_names cvxpy specs names) as [rs out'] eqn:Hrs.
    cbn [fst] in *.
    destruct (passed r) eqn:Hp.
    + rewrite filter_cons_False by (cbn; rewrite Hp; discriminate).
      destruct Hin as [->|Hin]; [|auto].
      rewrite Hget in Hm. inversion Hm; subst spec'.
      rewrite Hr in Hfail. cbn in Hfail. congruence.
    + rewrite filter_cons_True by (cbn; rewrite Hp; reflexivity).
      cbn. lia.
  - destruct Hin as [->|Hin]; [congruence | auto].
Qed.

(** ** Construction failures *)

(** C5, as stated, fails: when cvxpy raises on the test expression of
    [sum], the result of [sum] does not pass and the exit count is 1. *)
Lemma construction_failure_is_counted :
  fst (create_test_expression "sum" (cp.sum raising_lib)) = None
  /\ passed (fst (validate_atom raising_lib "sum" sum_spec)) = false
  /\ main raising_lib sum_only_specs = 1%nat.
Proof. repeat split; vm_compute; reflexivity. Qed.

(** The keys of [ATOM_MAP] are pairwise distinct. *)
Lemma ATOM_MAP_keys_NoDup (cvxpy : cp.lib) :
  List.NoDup (map fst (ATOM_MAP cvxpy)).
Proof.
  unfold ATOM_MAP. cbn [map fst].
  repeat (constructor;
          [cbn [In]; intros Hin;
           repeat (destruct Hin as [Hin | Hin]; [discriminate Hin|]);
           exact Hin|]).
  constructor.
Qed.

(** Leaving out a name that is not in the list changes nothing. *)
Lemma filter_other_names (n : string) (names : list string) :
  ~ In n names ->
  List.filter (fun m => negb (String.eqb m n)) names = names.
Proof.
  induction names as [|m names IH]; [reflexivity|]. cbn [In List.filter].
  intros Hnot. destruct (String.eqb_spec m n) as [->|_]; [tauto|].
  cbn [negb]. rewrite IH by tauto. reflexivity.
Qed.

(** A failing atom is exactly one of the failures that are counted: the
    count is one more than the count for the other names. *)
Lemma validate_names_count_one (cvxpy : cp.lib) (specs : AtomSpecs.t)
    (names : list string) (n : string) (spec : AtomSpec.t) :
  List.NoDup names -> In n names ->
  AtomSpecs.get specs n = Some spec ->
  passed (fst (validate_atom cvxpy n spec)) = false ->
  length (filter (fun r => negb (passed r) = true)
            (fst (validate_names cvxpy specs names)))
  = S (length (filter (fun r => negb (passed r) = true)
                 (fst (validate_names cvxpy specs
                         (List.filter (fun m => negb (String.eqb m n))
                                      names))))).
Proof.
  intros Hnodup Hin Hget Hfail.
  induction names as [|m names IH]; [destruct Hin|].
  apply NoDup_cons_iff in Hnodup as [Hm Hnodup].
  cbn [List.filter]. destruct (String.eqb_spec m n) as [->|Hne]; cbn [negb].
  - rewrite filter_other_names by exact Hm.
    cbn [validate_names]. rewrite Hget.
    destruct (validate_atom cvxpy n spec) as [r out].
    destruct (validate_names cvxpy specs names) as [rs out'].
    cbn [fst] in *. rewrite filter_cons_True by (rewrite Hfail; reflexivity).
    reflexivity.
  - destruct Hin as [Heq | Hin]; [congruence|].
    specialize (IH Hnodup Hin).
    cbn [validate_names].
    destruct (AtomSpecs.get specs m) as [spec'|]; [|exact IH].
    destruct (validate_atom cvxpy m spec') as [r out].
    destruct (validate_names cvxpy specs names) as [rs out'].
    destruct (validate_names cvxpy specs
                (List.filter (fun m0 => negb (String.eqb m0 n)) names))
      as [rs' out''].
    cbn [fst] in *. rewrite !filter_cons.
    destruct (decide (negb (passed r) = true)); cbn [length]; lia.
Qed.

(** C5, amended.  When the test expression of an atom is not constructed,
    either the backend raised, the exception is caught and one warning
    line with its text is printed, or the backend returned nothing and
    nothing is printed.  In both cases [creates_expr] is recorded as
    failed after the passed [exists] check and no further check runs, the
    result fails, and the atom is exactly one of the failing atoms of the
    exit count; the other atoms are validated all the same. *)
Theorem construction_failure_recorded (cvxpy : cp.lib) (atom_name : string)
    (atom_func : AtomFunc) (spec : AtomSpec.t) (specs : AtomSpecs.t) :
  dict_lookup (ATOM_MAP cvxpy) atom_name = Some atom_func ->
  fst (create_test_expression atom_name atom_func) = None ->
  AtomSpecs.get specs atom_name = Some spec ->
  (exists args,
      (exists e,
          atom_func args = Raise e
          /\ snd (validate_atom cvxpy atom_name spec)
             = ["  Warning: Could not create expression for " +:+ atom_name
                +:+ ": " +:+ e])
      \/ (atom_func args = Ok None
          /\ snd (validate_atom cvxpy atom_name spec) = []))
  /\ checks (fst (validate_atom cvxpy atom_name spec))
     = [("exists", true, "atom exists in cvxpy");
        ("creates_expr", false, "could not create expression")]
  /\ passed (fst (validate_atom cvxpy atom_name spec)) = false
  /\ main cvxpy specs
     = S (length
            (filter (fun r => negb (passed r) = true)
               (fst (validate_names cvxpy specs
                       (List.filter
                          (fun m => negb (String.eqb m atom_name))
                          (map fst (ATOM_MAP cvxpy)))))))
  /\ (forall m, In m (map fst (ATOM_MAP cvxpy)) ->
                is_Some (AtomSpecs.get specs m) ->
                In m (map validate_cvxpy.atom_name
                        (fst (validate_all cvxpy specs)))).
Proof.
  intros Hmap Hnone Hget.
  assert (Hva :
    fst (validate_atom cvxpy atom_name spec)
    = {| validate_cvxpy.atom_name := atom_name; passed := false;
         checks := [("exists", true, "atom exists in cvxpy");
                    ("creates_expr", false, "could not create expression")] |}
    /\ snd (validate_atom cvxpy atom_name spec)
       = snd (create_test_expression atom_name atom_func)).
  { unfold validate_atom. rewrite Hmap.
    destruct (create_test_expression atom_name atom_func) as [[expr|] out];
      [discriminate | split; reflexivity]. }
  destruct Hva as [Hres Hout]. rewrite Hres, Hout.
  cbn [fst snd passed checks].
  split; [|split; [reflexivity|]; split; [reflexivity|]; split].
  - unfold create_test_expression in *. cbv zeta in *.
    repeat match goal with
           | H : context [String.eqb ?a ?b] |- _ => destruct (String.eqb a b)
           end;
      match goal with
      | H : fst (match atom_func ?args with _ => _ end) = None |- _ =>
          exists args; destruct (atom_func args) as [[expr|]|e];
          [discriminate | right; auto | left; eauto]
      end.
  - unfold main, validate_all.
    pose proof (validate_names_count_one cvxpy specs
                  (map fst (ATOM_MAP cvxpy)) atom_name spec
                  (ATOM_MAP_keys_NoDup cvxpy)
                  (dict_lookup_key _ _ _ Hmap) Hget) as Hcount.
    destruct (validate_names cvxpy specs (map fst (ATOM_MAP cvxpy)))
      as [results out].
    apply Hcount. rewrite Hres. reflexivity.
  - intros m Hin Hknown. unfold validate_all.
    rewrite validate_names_atoms. apply filter_In. split; [exact Hin|].
    apply bool_decide_eq_true. exact Hknown.
Qed.

Lemma construction_failure_recorded_witness :
  dict_lookup (ATOM_MAP raising_lib) "sum" = Some (cp.sum raising_lib)
  /\ fst (create_test_expression "sum" (cp.sum raising_lib)) = None
  /\ AtomSpecs.get sum_and_abs_specs "sum" = Some sum_spec
  /\ passed (fst (validate_atom raising_lib "sum" sum_spec)) = false
  /\ main raising_lib sum_and_abs_specs = 2%nat.
Proof.
  split; [reflexivity|]. split; [reflexivity|].
  split; [vm_compute; reflexivity|].
  destruct (construction_failure_recorded raising_lib "sum"
              (cp.sum raising_lib) sum_spec sum_and_abs_specs)
    as (_ & _ & Hpassed & Hcount & _).
  - reflexivity.
  - reflexivity.
  - vm_compute. reflexivity.
  - split; [exact Hpassed|]. rewrite Hcount. vm_compute. reflexivity.
Defined.

(** ** Loader: the sign field *)

Import spec_loader.

(** The slip that C7 meets: [_parse_sign] has no branch for the token
    [zero], although [Sign.ZERO] exists and [check_sign] handles it. *)
Lemma parse_sign_zero_token :
  _parse_sign (YStr "zero") = Sign.UNKNOWN.
Proof. reflexivity. Qed.

(** C7, as stated, fails: a sign token outside the contract does not make
    the loader fail, the atom is loaded with sign unknown. *)
Lemma unrecognized_sign_token_is_loaded :
  _parse_atom "a" (YMap [("sign", YStr "positive")]) Curvature.CONVEX
  = Ok (make_spec "a" Curvature.CONVEX Sign.UNKNOWN YNull).
Proof. reflexivity. Qed.

Lemma of_value_value (c : Curvature.t) :
  Curvature.of_value (YStr (Curvature.value c)) = Ok c.
Proof. destruct c; reflexivity. Qed.

Lemma of_value_Ok (raw : yaml) (c : Curvature.t) :
  Curvature.of_value raw = Ok c -> raw = YStr (Curvature.value c).
Proof.
  unfold Curvature.of_value, yaml_eq_str.
  destruct raw as [| | |s| |]; try discriminate.
  repeat match goal with
         | |- context [String.eqb s ?lit] =>
             destruct (String.eqb_spec s lit) as [->|_]
         end; intros [= <-]; reflexivity.
Qed.

(** [data.get(key, dflt)] is [dflt] for an absent key. *)
Lemma dict_get_absent (items : list (string * yaml)) (key : string)
    (dflt : yaml) :
  dict_lookup items key = None -> dict_get items key dflt = dflt.
Proof. intros H. unfold dict_get. rewrite H. reflexivity. Qed.

(** An atom entry whose curvature is absent is always loaded. *)
Lemma parse_atom_without_curvature (name : string)
    (items : list (string * yaml)) (default_curvature : Curvature.t) :
  dict_lookup items "curvature" = None ->
  _parse_atom name (YMap items) default_curvature
  = Ok {| AtomSpec.name := name;
          AtomSpec.description := dict_get items "description" (YStr "");
          AtomSpec.curvature := default_curvature;
          AtomSpec.sign := _parse_sign (dict_get items "sign" (YStr "unknown"));
          AtomSpec.arity := dict_get items "arity" (YStr "unary");
          AtomSpec.dcp_requires := dict_get items "dcp_requires" YNull;
          AtomSpec.monotonicity :=
            _parse_monotonicity (dict_get items "monotonicity" YNull);
          AtomSpec.parameters := dict_get items "parameters" (YList []) |}.
Proof.
  intros Hcurv. unfold _parse_atom. cbv zeta.
  rewrite (dict_get_absent items "curvature") by exact Hcurv.
  destruct default_curvature; reflexivity.
Qed.

(** The curvature of an entry, as [_parse_atom] resolves it. *)
Lemma parse_atom_curvature_cases (name : string)
    (items : list (string * yaml)) (default_curvature : Curvature.t) :
  (exists c,
      _parse_atom name (YMap items) default_curvature
      = Ok {| AtomSpec.name := name;
              AtomSpec.description := dict_get items "description" (YStr "");
              AtomSpec.curvature := c;
              AtomSpec.sign :=
                _parse_sign (dict_get items "sign" (YStr "unknown"));
              AtomSpec.arity := dict_get items "arity" (YStr "unary");
              AtomSpec.dcp_requires := dict_get items "dcp_requires" YNull;
              AtomSpec.monotonicity :=
                _parse_monotonicity (dict_get items "monotonicity" YNull);
              AtomSpec.parameters := dict_get items "parameters" (YList []) |}
      /\ (dict_lookup items "curvature" = None /\ c = default_curvature
          \/ (exists rule, dict_lookup items "curvature" = Some (YMap rule))
             /\ c = default_curvature
          \/ dict_lookup items "curvature" = Some (YStr "preserve")
             /\ c = default_curvature
          \/ dict_lookup items "curvature" = Some (YStr (Curvature.value c))))
  \/ (exists token e,
         dict_lookup items "curvature" = Some token
         /\ (forall rule, token <> YMap rule)
         /\ token <> YStr "preserve"
         /\ Curvature.of_value token = Raise e
         /\ _parse_atom name (YMap items) default_curvature = Raise e).
Proof.
  unfold _parse_atom, dict_get. cbv zeta.
  destruct (dict_lookup items "curvature") as [raw|] eqn:Hraw.
  - destruct raw as [| | |s| |rule];
      try (right; eexists _, _; split; [reflexivity|];
           split; [discriminate|]; split; [discriminate|];
           split; reflexivity).
    + cbn [yaml_eq_str].
      destruct (String.eqb_spec s "preserve") as [->|Hpres]; cbn [negb].
      * left. exists default_curvature. split; [reflexivity|]. auto.
      * destruct (Curvature.of_value (YStr s)) as [c|e] eqn:Hof;
          cbn [exc_bind].
        -- left. exists c. split; [reflexivity|].
           do 3 right. f_equal. apply of_value_Ok. exact Hof.
        -- right. exists (YStr s), e. repeat split; try assumption;
             congruence.
    + left. exists default_curvature. split; [reflexivity|].
      right; left. eauto.
  - left. exists default_curvature.
    split; [destruct default_curvature; reflexivity|]. left. auto.
Qed.

(** C7, amended.  The sign entry of an atom never makes the loader fail:
    an entry is loaded unless its curvature token is not a curvature, and
    then the exception is that of the curvature.  In the loaded contract
    [nonnegative] and [nonpositive] are the matching sign, and every other
    entry apart from [zero] -- the sentinels [from_value],
    [from_attributes] and [preserve], the token [unknown], any other
    token, any value that is not a string -- is unknown. *)
Theorem sign_field_resolution (name : string) (items : list (string * yaml))
    (default_curvature : Curvature.t) (raw : yaml) :
  dict_lookup items "sign" = Some raw ->
  raw <> YStr "zero" ->
  (forall e,
      _parse_atom name (YMap items) default_curvature = Raise e ->
      exists token,
        dict_lookup items "curvature" = Some token
        /\ Curvature.of_value token = Raise e)
  /\ ((dict_lookup items "curvature" = None
       \/ (exists rule, dict_lookup items "curvature" = Some (YMap rule))
       \/ dict_lookup items "curvature" = Some (YStr "preserve")
       \/ (exists c, dict_lookup items "curvature"
                     = Some (YStr (Curvature.value c)))) ->
      exists spec, _parse_atom name (YMap items) default_curvature = Ok spec)
  /\ (forall spec,
         _parse_atom name (YMap items) default_curvature = Ok spec ->
         (raw = YStr "nonnegative" /\ AtomSpec.sign spec = Sign.NONNEGATIVE)
         \/ (raw = YStr "nonpositive"
             /\ AtomSpec.sign spec = Sign.NONPOSITIVE)
         \/ (raw <> YStr "nonnegative" /\ raw <> YStr "nonpositive"
             /\ AtomSpec.sign spec = Sign.UNKNOWN)).
Proof.
  intros Hsign _.
  destruct (parse_atom_curvature_cases name items default_curvature)
    as [(c & Hok & Hcases) | (token & e & Htok & Hmap & Hpres & Hof & Hraise)].
  - split; [intros e He; congruence|]. split; [eauto|].
    intros spec Hspec. rewrite Hok in Hspec. injection Hspec as <-.
    cbn [AtomSpec.sign]. unfold dict_get. rewrite Hsign.
    destruct raw as [| | |s| |]; try (right; right; repeat split; congruence).
    unfold _parse_sign.
    destruct (String.eqb_spec s "nonnegative") as [->|Hnn]; [left; auto|].
    destruct (String.eqb_spec s "nonpositive") as [->|Hnp];
      [right; left; auto|].
    right; right. repeat split; try congruence.
    repeat match goal with |- context [if ?b then _ else _] => destruct b end;
      reflexivity.
  - split; [|split].
    + intros e' He'. exists token. split; [exact Htok|]. congruence.
    + intros [Hnone | [[rule Hrule] | [Hp | [c Hc]]]]; exfalso.
      * congruence.
      * rewrite Htok in Hrule. injection Hrule as ->. exact (Hmap rule eq_refl).
      * congruence.
      * rewrite Htok in Hc. injection Hc as ->.
        rewrite of_value_value in Hof. discriminate.
    + intros spec Hspec. congruence.
Qed.

Lemma sign_field_resolution_witness :
  dict_lookup [("curvature", YStr "convex"); ("sign", YStr "from_value")]
              "sign"
  = Some (YStr "from_value")
  /\ YStr "from_value" <> YStr "zero"
  /\ exists spec,
      _parse_atom "a"
        (YMap [("curvature", YStr "convex"); ("sign", YStr "from_value")])
        Curvature.AFFINE
      = Ok spec
      /\ AtomSpec.sign spec = Sign.UNKNOWN.
Proof.
  split; [reflexivity|]. split; [discriminate|].
  destruct (sign_field_resolution "a"
              [("curvature", YStr "convex"); ("sign", YStr "from_value")]
              Curvature.AFFINE (YStr "from_value"))
    as (_ & _ & Hsign).
  - reflexivity.
  - discriminate.
  - eexists. split; [reflexivity|].
    destruct (Hsign _ eq_refl) as [[Heq _] | [[Heq _] | (_ & _ & Hs)]];
      [discriminate Heq | discriminate Heq | exact Hs].
Defined.

(** The literal tokens and the sentinels, one by one. *)
Lemma parse_sign_tokens :
  _parse_sign (YStr "nonnegative") = Sign.NONNEGATIVE
  /\ _parse_sign (YStr "nonpositive") = Sign.NONPOSITIVE
  /\ _parse_sign (YStr "unknown") = Sign.UNKNOWN
  /\ _parse_sign (YStr "from_value") = Sign.UNKNOWN
  /\ _parse_sign (YStr "from_attributes") = Sign.UNKNOWN
  /\ _parse_sign (YStr "preserve") = Sign.UNKNOWN.
Proof. repeat split; reflexivity. Qed.

(** ** Loader: lookup by name *)

(** The loader accepts a document that declares one name in two groups. *)
Lemma load_colliding_doc : load_specs colliding_doc = Ok colliding_specs.
Proof. reflexivity. Qed.

(** C8, as stated, fails: for a name declared in two partitions the answer
    is fixed by the scan order.  [get] answers from the affine partition,
    [all_atoms] keeps the convex entry, and scanning the convex partition
    first changes the answer of the scan. *)
Lemma colliding_name_resolved_by_order :
  load_specs colliding_doc = Ok colliding_specs
  /\ AtomSpecs.get colliding_specs "x" = Some x_affine
  /\ AtomSpecs.all_atoms colliding_specs !! "x" = Some x_convex
  /\ lookup_in_order [AtomSpecs.convex_atoms colliding_specs;
                      AtomSpecs.affine_atoms colliding_specs;
                      AtomSpecs.concave_atoms colliding_specs] "x"
     = Some x_convex
  /\ x_affine <> x_convex.
Proof.
  split; [reflexivity|]. split; [vm_compute; reflexivity|].
  split; [vm_compute; reflexivity|]. split; [vm_compute; reflexivity|].
  discriminate.
Qed.

(** [get] is the scan of the partitions in their declared order. *)
Lemma get_lookup_in_order (specs : AtomSpecs.t) (name : string) :
  AtomSpecs.get specs name = lookup_in_order (partitions specs) name.
Proof.
  unfold AtomSpecs.get, partitions; cbn [lookup_in_order].
  destruct (AtomSpecs.affine_atoms specs !! name),
    (AtomSpecs.convex_atoms specs !! name),
    (AtomSpecs.concave_atoms specs !! name); reflexivity.
Qed.

(** The scan answers with the first of the entries found. *)
Lemma lookup_in_order_head (parts : list (gmap string AtomSpec.t))
    (name : string) :
  lookup_in_order parts name = head (omap (fun part => part !! name) parts).
Proof.
  induction parts as [|part parts IH]; [reflexivity|].
  cbn [lookup_in_order omap list_omap].
  change (list_omap ?f ?l) with (omap f l).
  destruct (part !! name); [reflexivity|]. exact IH.
Qed.

(** A list with at most one element has no other arrangement. *)
Lemma short_list_Permutation {A : Type} (l k : list A) :
  (length l <= 1)%nat -> Permutation k l -> k = l.
Proof.
  intros Hlen Hperm. destruct l as [|x [|y l]]; cbn in Hlen; [| |lia].
  - apply Permutation_nil_r in Hperm. exact Hperm.
  - apply Permutation_singleton_r in Hperm. exact Hperm.
Qed.

(** [load_specs] reads the three groups one after the other and compares
    nothing across them. *)
Lemma load_specs_groups (doc : list (string * yaml)) (specs : AtomSpecs.t) :
  load_specs (YMap doc) = Ok specs
  <-> parse_group doc "affine_atoms" Curvature.AFFINE
      = Ok (AtomSpecs.affine_atoms specs)
      /\ parse_group doc "convex_atoms" Curvature.CONVEX
         = Ok (AtomSpecs.convex_atoms specs)
      /\ parse_group doc "concave_atoms" Curvature.CONCAVE
         = Ok (AtomSpecs.concave_atoms specs).
Proof.
  unfold load_specs. split.
  - destruct (parse_group doc "affine_atoms" _) as [a|]; [|discriminate].
    destruct (parse_group doc "convex_atoms" _) as [c|]; [|discriminate].
    destruct (parse_group doc "concave_atoms" _) as [k|]; [|discriminate].
    cbn [exc_bind]. intros [= <-]. auto.
  - intros (-> & -> & ->). destruct specs; reflexivity.
Qed.

(** C8, amended.  In every catalog [get] answers with the first partition
    that has the name, in the order affine, convex, concave, and
    [all_atoms] keeps the entry of the last one.  The loader reads the
    three groups separately and does not reject a name that is in more
    than one.  In a catalog whose partitions share no name the order does
    not matter: [get] and [all_atoms] agree, and scanning the partitions
    in any order gives the answer of [get]. *)
Theorem catalog_lookup_resolution (specs : AtomSpecs.t) (name : string) :
  AtomSpecs.get specs name
  = lookup_in_order [AtomSpecs.affine_atoms specs;
                     AtomSpecs.convex_atoms specs;
                     AtomSpecs.concave_atoms specs] name
  /\ AtomSpecs.all_atoms specs !! name
     = lookup_in_order [AtomSpecs.concave_atoms specs;
                        AtomSpecs.convex_atoms specs;
                        AtomSpecs.affine_atoms specs] name
  /\ (forall doc,
         load_specs (YMap doc) = Ok specs
         <-> parse_group doc "affine_atoms" Curvature.AFFINE
             = Ok (AtomSpecs.affine_atoms specs)
             /\ parse_group doc "convex_atoms" Curvature.CONVEX
                = Ok (AtomSpecs.convex_atoms specs)
             /\ parse_group doc "concave_atoms" Curvature.CONCAVE
                = Ok (AtomSpecs.concave_atoms specs))
  /\ (AtomSpecs.affine_atoms specs ##ₘ AtomSpecs.convex_atoms specs ->
      AtomSpecs.affine_atoms specs ##ₘ AtomSpecs.concave_atoms specs ->
      AtomSpecs.convex_atoms specs ##ₘ AtomSpecs.concave_atoms specs ->
      AtomSpecs.get specs name = AtomSpecs.all_atoms specs !! name
      /\ forall parts, Permutation parts (partitions specs) ->
                       lookup_in_order parts name = AtomSpecs.get specs name).
Proof.
  split; [apply get_lookup_in_order|].
  split.
  { unfold AtomSpecs.all_atoms. rewrite !lookup_union. cbn [lookup_in_order].
    destruct (AtomSpecs.affine_atoms specs !! name),
      (AtomSpecs.convex_atoms specs !! name),
      (AtomSpecs.concave_atoms specs !! name); reflexivity. }
  split; [intros doc; apply load_specs_groups|].
  intros Hac Hak Hck.
  pose proof (proj1 (map_disjoint_spec _ _) Hac name) as Hac'.
  pose proof (proj1 (map_disjoint_spec _ _) Hak name) as Hak'.
  pose proof (proj1 (map_disjoint_spec _ _) Hck name) as Hck'.
  split.
  - unfold AtomSpecs.get, AtomSpecs.all_atoms. rewrite !lookup_union.
    destruct (AtomSpecs.affine_atoms specs !! name) as [a|] eqn:Ea,
      (AtomSpecs.convex_atoms specs !! name) as [c|] eqn:Ec,
      (AtomSpecs.concave_atoms specs !! name) as [k|] eqn:Ek;
      try reflexivity; exfalso; eauto.
  - intros parts Hperm.
    rewrite get_lookup_in_order, !lookup_in_order_head. f_equal.
    apply short_list_Permutation.
    + unfold partitions; cbn [omap list_omap].
      destruct (AtomSpecs.affine_atoms specs !! name) as [a|] eqn:Ea,
        (AtomSpecs.convex_atoms specs !! name) as [c|] eqn:Ec,
        (AtomSpecs.concave_atoms specs !! name) as [k|] eqn:Ek;
        cbn; try lia; exfalso; eauto.
    + apply omap_Permutation. exact Hperm.
Qed.

Lemma catalog_lookup_resolution_witness :
  AtomSpecs.affine_atoms three_specs ##ₘ AtomSpecs.convex_atoms three_specs
  /\ AtomSpecs.affine_atoms three_specs
     ##ₘ AtomSpecs.concave_atoms three_specs
  /\ AtomSpecs.convex_atoms three_specs
     ##ₘ AtomSpecs.concave_atoms three_specs
  /\ AtomSpecs.get three_specs "abs"
     = AtomSpecs.all_atoms three_specs !! "abs"
  /\ forall parts, Permutation parts (partitions three_specs) ->
                   lookup_in_order parts "abs"
                   = AtomSpecs.get three_specs "abs".
Proof.
  assert (Hac : AtomSpecs.affine_atoms three_specs
                ##ₘ AtomSpecs.convex_atoms three_specs).
  { apply map_disjoint_singleton_l_2. vm_compute. reflexivity. }
  assert (Hak : AtomSpecs.affine_atoms three_specs
                ##ₘ AtomSpecs.concave_atoms three_specs).
  { apply map_disjoint_singleton_l_2. vm_compute. reflexivity. }
  assert (Hck : AtomSpecs.convex_atoms three_specs
                ##ₘ AtomSpecs.concave_atoms three_specs).
  { apply map_disjoint_singleton_l_2. vm_compute. reflexivity. }
  split; [exact Hac|]. split; [exact Hak|]. split; [exact Hck|].
  destruct (catalog_lookup_resolution three_specs "abs")
    as (_ & _ & _ & Hdisjoint).
  exact (Hdisjoint Hac Hak Hck).
Defined.

(** ** Loader: defaults *)

Lemma parse_atom_name (name : string) (data : yaml)
    (default_curvature : Curvature.t) (spec : AtomSpec.t) :
  _parse_atom name data default_curvature = Ok spec ->
  AtomSpec.name spec = name.
Proof.
  unfold _parse_atom. destruct data; try discriminate.
  match goal with
  | |- exc_bind ?m _ = _ -> _ => destruct m; cbn [exc_bind]
  end; [intros [= <-]; reflexivity | discriminate].
Qed.

(** The loop keeps two facts about the partition it fills: every entry is
    stored under its own name, and the names are those already there and
    those of the group. *)
Lemma parse_items_invariant (group : list (string * yaml))
    (default_curvature : Curvature.t) (atoms m : gmap string AtomSpec.t) :
  parse_items group default_curvature atoms = Ok m ->
  (forall n s, atoms !! n = Some s -> AtomSpec.name s = n) ->
  (forall n s, m !! n = Some s -> AtomSpec.name s = n)
  /\ (forall n, is_Some (m !! n)
                <-> is_Some (atoms !! n) \/ In n (map fst group)).
Proof.
  revert atoms. induction group as [|[k data] group IH]; intros atoms;
    cbn [parse_items].
  - intros [= <-] Hnames. split; [exact Hnames|]. cbn. tauto.
  - destruct (_parse_atom k data default_curvature) as [spec|] eqn:Hspec;
      cbn [exc_bind]; [|discriminate].
    intros Hm Hnames.
    apply parse_atom_name in Hspec.
    destruct (IH _ Hm) as [IH1 IH2].
    { intros n s. rewrite lookup_insert.
      destruct (decide (k = n)) as [<-|]; [intros [= <-]; exact Hspec|].
      apply Hnames. }
    split; [exact IH1|]. intros n. rewrite IH2. cbn [map fst In].
    rewrite lookup_insert. destruct (decide (k = n)) as [<-|Hne].
    + split; [auto | intros _; left; eauto].
    + tauto.
Qed.

Lemma parse_group_invariant (doc : list (string * yaml)) (key : string)
    (default_curvature : Curvature.t) (m : gmap string AtomSpec.t) :
  parse_group doc key default_curvature = Ok m ->
  (forall n s, m !! n = Some s -> AtomSpec.name s = n)
  /\ (forall n, is_Some (m !! n)
                <-> exists group, dict_get doc key (YMap []) = YMap group
                                  /\ In n (map fst group)).
Proof.
  unfold parse_group.
  destruct (dict_get doc key (YMap [])) as [| | | | |group]; try discriminate.
  intros Hm.
  destruct (parse_items_invariant group default_curvature ∅ m Hm)
    as [H1 H2]; [intros n s; rewrite lookup_empty; discriminate|].
  split; [exact H1|]. intros n. rewrite H2, lookup_empty. split.
  - intros [[? [=]] | Hin]. eauto.
  - intros (group' & [= <-] & Hin). auto.
Qed.

(** C10, as stated, fails: a document that is empty, a group that is
    empty and an atom entry that is empty are [None], not mappings, and
    the loader raises [AttributeError] on each of them. *)
Lemma loader_raises_on_empty_values :
  load_specs YNull = Raise "'NoneType' object has no attribute 'get'"
  /\ load_specs (YMap [("affine_atoms", YNull)])
     = Raise "'NoneType' object has no attribute 'items'"
  /\ load_specs (YMap [("affine_atoms", YMap [("sum", YNull)])])
     = Raise "'NoneType' object has no attribute 'get'".
Proof. repeat split; reflexivity. Qed.

(** An accepted entry is loaded. *)
Lemma parse_atom_loads (name : string) (data : yaml)
    (default_curvature : Curvature.t) :
  entry_loads data ->
  exists spec, _parse_atom name data default_curvature = Ok spec.
Proof.
  intros (items & -> & Hcurv).
  destruct (parse_atom_curvature_cases name items default_curvature)
    as [(c & Hok & _) | (token & e & Htok & Hmap & Hpres & Hof & _)];
    [eauto|].
  exfalso. destruct Hcurv as [Hnone | [[rule Hrule] | [Hp | [c Hc]]]].
  - congruence.
  - rewrite Htok in Hrule. injection Hrule as ->. exact (Hmap rule eq_refl).
  - congruence.
  - rewrite Htok in Hc. injection Hc as ->.
    rewrite of_value_value in Hof. discriminate.
Qed.

(** Only an accepted entry is loaded. *)
Lemma parse_atom_Ok_loads (name : string) (data : yaml)
    (default_curvature : Curvature.t) (spec : AtomSpec.t) :
  _parse_atom name data default_curvature = Ok spec -> entry_loads data.
Proof.
  destruct data as [| | | | |items]; try discriminate.
  intros Hok. exists items. split; [reflexivity|].
  destruct (parse_atom_curvature_cases name items default_curvature)
    as [(c & _ & Hcases) | (token & e & _ & _ & _ & _ & Hraise)];
    [|congruence].
  destruct Hcases as [[H _] | [[H _] | [[H _] | H]]]; eauto.
Qed.

(** The fields of a loaded entry: those that the entry does not have take
    their defaults. *)
Lemma parse_atom_defaults (name : string) (data : yaml)
    (default_curvature : Curvature.t) (spec : AtomSpec.t) :
  _parse_atom name data default_curvature = Ok spec ->
  exists items,
    data = YMap items
    /\ AtomSpec.name spec = name
    /\ (dict_lookup items "curvature" = None
        \/ (exists rule, dict_lookup items "curvature" = Some (YMap rule))
        \/ dict_lookup items "curvature" = Some (YStr "preserve") ->
        AtomSpec.curvature spec = default_curvature)
    /\ (forall c, dict_lookup items "curvature"
                  = Some (YStr (Curvature.value c)) ->
                  AtomSpec.curvature spec = c)
    /\ (dict_lookup items "description" = None ->
        AtomSpec.description spec = YStr "")
    /\ (dict_lookup items "sign" = None ->
        AtomSpec.sign spec = Sign.UNKNOWN)
    /\ (dict_lookup items "arity" = None ->
        AtomSpec.arity spec = YStr "unary")
    /\ (dict_lookup items "dcp_requires" = None ->
        AtomSpec.dcp_requires spec = YNull
        /\ AtomSpec.requires_affine_arg spec = false)
    /\ (dict_lookup items "monotonicity" = None ->
        AtomSpec.monotonicity spec = None)
    /\ (dict_lookup items "parameters" = None ->
        AtomSpec.parameters spec = YList []).
Proof.
  destruct data as [| | | | |items]; try discriminate.
  intros Hok. exists items. split; [reflexivity|].
  destruct (parse_atom_curvature_cases name items default_curvature)
    as [(c & Hc & Hcases) | (token & e & _ & _ & _ & _ & Hraise)];
    [|congruence].
  rewrite Hc in Hok. injection Hok as <-.
  cbn [AtomSpec.name AtomSpec.curvature AtomSpec.description
       AtomSpec.sign AtomSpec.arity AtomSpec.dcp_requires
       AtomSpec.monotonicity AtomSpec.parameters].
  unfold AtomSpec.requires_affine_arg; cbn [AtomSpec.dcp_requires].
  split; [reflexivity|]. split; [|split].
  - intros Habsent.
    destruct Hcases as [[_ ->] | [[_ ->] | [[_ ->] | Hvalue]]];
      try reflexivity.
    rewrite Hvalue in Habsent.
    destruct Habsent as [Ha | [[rule Ha] | Ha]]; try discriminate.
    injection Ha as Ha. destruct c; discriminate.
  - intros c' Hc'.
    destruct Hcases as [[H _] | [[[rule H] _] | [[H _] | H]]];
      rewrite Hc' in H; try discriminate.
    + injection H as H. destruct c'; discriminate.
    + injection H as H. destruct c, c'; first [reflexivity | discriminate].
  - repeat match goal with
           | |- _ /\ _ => split
           | |- _ -> _ =>
               let H := fresh "Habsent" in
               intros H; rewrite ?(dict_get_absent _ _ _ H)
           end; reflexivity.
Qed.

(** The loop loads a group of accepted entries, and every entry of the
    partition it fills was there before or is the contract of an entry of
    the group. *)
Lemma parse_items_loads (group : list (string * yaml))
    (default_curvature : Curvature.t) (atoms : gmap string AtomSpec.t) :
  Forall (fun entry => entry_loads (snd entry)) group ->
  exists m, parse_items group default_curvature atoms = Ok m.
Proof.
  intros Hgroup. revert atoms.
  induction Hgroup as [|[n data] group Hentry _ IH]; intros atoms;
    cbn [parse_items]; [eauto|].
  destruct (parse_atom_loads n data default_curvature Hentry) as [spec ->].
  cbn [exc_bind]. apply IH.
Qed.

Lemma parse_items_Ok_loads (group : list (string * yaml))
    (default_curvature : Curvature.t) (atoms m : gmap string AtomSpec.t) :
  parse_items group default_curvature atoms = Ok m ->
  Forall (fun entry => entry_loads (snd entry)) group.
Proof.
  revert atoms. induction group as [|[n data] group IH]; intros atoms;
    cbn [parse_items]; [constructor|].
  destruct (_parse_atom n data default_curvature) as [spec|] eqn:Hspec;
    cbn [exc_bind]; [|discriminate].
  intros Hm. constructor; [|eapply IH; exact Hm].
  eapply parse_atom_Ok_loads. exact Hspec.
Qed.

Lemma parse_items_entries (group : list (string * yaml))
    (default_curvature : Curvature.t) (atoms m : gmap string AtomSpec.t) :
  parse_items group default_curvature atoms = Ok m ->
  forall n s, m !! n = Some s ->
              atoms !! n = Some s
              \/ exists data, In (n, data) group
                              /\ _parse_atom n data default_curvature = Ok s.
Proof.
  revert atoms. induction group as [|[k data] group IH]; intros atoms;
    cbn [parse_items].
  - intros [= <-] n s Hn. auto.
  - destruct (_parse_atom k data default_curvature) as [spec|] eqn:Hspec;
      cbn [exc_bind]; [|discriminate].
    intros Hm n s Hn.
    destruct (IH _ Hm n s Hn) as [Hins | (data' & Hin & Hparse)].
    + rewrite lookup_insert in Hins.
      destruct (decide (k = n)) as [<-|_]; [|auto].
      injection Hins as <-. right. exists data. split; [left|]; auto.
    + right. exists data'. split; [right|]; auto.
Qed.

(** One group of the document: when it loads, and what it loads. *)
Lemma parse_group_loads (doc : list (string * yaml)) (key : string)
    (default_curvature : Curvature.t) :
  group_loads doc key <->
  exists m, parse_group doc key default_curvature = Ok m.
Proof.
  unfold group_loads, parse_group, dict_get. split.
  - intros [-> | (group & -> & Hgroup)]; [cbn; eauto|].
    apply parse_items_loads. exact Hgroup.
  - destruct (dict_lookup doc key) as [[| | | | |group]|];
      try (intros [part Hpart]; discriminate Hpart); [|auto].
    intros [part Hm]. right. exists group. split; [reflexivity|].
    eapply parse_items_Ok_loads. exact Hm.
Qed.

Lemma parse_group_entries (doc : list (string * yaml)) (key : string)
    (default_curvature : Curvature.t) (m : gmap string AtomSpec.t) :
  parse_group doc key default_curvature = Ok m ->
  (dict_lookup doc key = None -> m = ∅)
  /\ (forall group n, dict_lookup doc key = Some (YMap group) ->
                      In n (map fst group) -> is_Some (m !! n))
  /\ (forall n s, m !! n = Some s ->
                  exists group data,
                    dict_lookup doc key = Some (YMap group)
                    /\ In (n, data) group
                    /\ _parse_atom n data default_curvature = Ok s).
Proof.
  intros Hm. pose proof (parse_group_invariant _ _ _ _ Hm) as [_ Hnames].
  unfold parse_group, dict_get in *.
  destruct (dict_lookup doc key) as [[| | | | |group]|]; try discriminate.
  - split; [discriminate|]. split.
    + intros group' n [= <-] Hin. apply Hnames. eauto.
    + intros n s Hn.
      destruct (parse_items_entries _ _ _ _ Hm n s Hn)
        as [Hempty | (data & Hin & Hparse)].
      * rewrite lookup_empty in Hempty. discriminate.
      * eauto.
  - cbn in Hm. injection Hm as <-. split; [reflexivity|].
    split; [discriminate|]. intros n s. rewrite lookup_empty. discriminate.
Qed.

(** A document loads exactly when each of its groups is absent or a
    mapping of accepted entries. *)
Lemma load_specs_well_formed (doc : list (string * yaml)) :
  well_formed doc <-> exists specs, load_specs (YMap doc) = Ok specs.
Proof.
  unfold well_formed.
  rewrite (parse_group_loads doc "affine_atoms" Curvature.AFFINE),
    (parse_group_loads doc "convex_atoms" Curvature.CONVEX),
    (parse_group_loads doc "concave_atoms" Curvature.CONCAVE).
  split.
  - intros ([a Ha] & [c Hc] & [k Hk]).
    exists {| AtomSpecs.affine_atoms := a; AtomSpecs.convex_atoms := c;
              AtomSpecs.concave_atoms := k |}.
    apply load_specs_groups. auto.
  - intros [specs Hload]. apply load_specs_groups in Hload as (? & ? & ?).
    repeat split; eexists; eassumption.
Qed.

(** C10, amended.  A document that is a mapping, whose groups are absent
    or mappings, and whose atom entries are mappings with a curvature
    that is absent, structured, [preserve] or a curvature value, is
    loaded.  A group that the document does not have is an empty
    partition; every entry of a group is loaded into the partition of the
    group, and every loaded contract is that of an entry of the group,
    with the curvature of the partition when the entry has none, a
    structured one or [preserve], and with the default of each field that
    the entry does not have: empty description, sign unknown, arity
    unary, no composition requirement, no monotonicity, no parameters. *)
Theorem loader_defaults (doc : list (string * yaml)) :
  well_formed doc ->
  exists specs,
    load_specs (YMap doc) = Ok specs
    /\ forall key default_curvature part,
        In (key, default_curvature, part)
           [("affine_atoms", Curvature.AFFINE, AtomSpecs.affine_atoms specs);
            ("convex_atoms", Curvature.CONVEX, AtomSpecs.convex_atoms specs);
            ("concave_atoms", Curvature.CONCAVE,
             AtomSpecs.concave_atoms specs)] ->
        (dict_lookup doc key = None -> part = ∅)
        /\ (forall group name,
               dict_lookup doc key = Some (YMap group) ->
               In name (map fst group) -> is_Some (part !! name))
        /\ (forall name spec,
               part !! name = Some spec ->
               exists group items,
                 dict_lookup doc key = Some (YMap group)
                 /\ In (name, YMap items) group
                 /\ AtomSpec.name spec = name
                 /\ (dict_lookup items "curvature" = None
                     \/ (exists rule, dict_lookup items "curvature"
                                      = Some (YMap rule))
                     \/ dict_lookup items "curvature"
                        = Some (YStr "preserve") ->
                     AtomSpec.curvature spec = default_curvature)
                 /\ (dict_lookup items "description" = None ->
                     AtomSpec.description spec = YStr "")
                 /\ (dict_lookup items "sign" = None ->
                     AtomSpec.sign spec = Sign.UNKNOWN)
                 /\ (dict_lookup items "arity" = None ->
                     AtomSpec.arity spec = YStr "unary")
                 /\ (dict_lookup items "dcp_requires" = None ->
                     AtomSpec.dcp_requires spec = YNull
                     /\ AtomSpec.requires_affine_arg spec = false)
                 /\ (dict_lookup items "monotonicity" = None ->
                     AtomSpec.monotonicity spec = None)
                 /\ (dict_lookup items "parameters" = None ->
                     AtomSpec.parameters spec = YList [])).
Proof.
  intros Hdoc. apply load_specs_well_formed in Hdoc as [specs Hload].
  exists specs. split; [exact Hload|].
  apply load_specs_groups in Hload as (Ha & Hc & Hk).
  assert (Hgroup : forall key default_curvature part,
            parse_group doc key default_curvature = Ok part ->
            (dict_lookup doc key = None -> part = ∅)
            /\ (forall group name,
                   dict_lookup doc key = Some (YMap group) ->
                   In name (map fst group) -> is_Some (part !! name))
            /\ (forall name spec,
                   part !! name = Some spec ->
                   exists group items,
                     dict_lookup doc key = Some (YMap group)
                     /\ In (name, YMap items) group
                     /\ AtomSpec.name spec = name
                     /\ (dict_lookup items "curvature" = None
                         \/ (exists rule, dict_lookup items "curvature"
                                          = Some (YMap rule))
                         \/ dict_lookup items "curvature"
                            = Some (YStr "preserve") ->
                         AtomSpec.curvature spec = default_curvature)
                     /\ (dict_lookup items "description" = None ->
                         AtomSpec.description spec = YStr "")
                     /\ (dict_lookup items "sign" = None ->
                         AtomSpec.sign spec = Sign.UNKNOWN)
                     /\ (dict_lookup items "arity" = None ->
                         AtomSpec.arity spec = YStr "unary")
                     /\ (dict_lookup items "dcp_requires" = None ->
                         AtomSpec.dcp_requires spec = YNull
                         /\ AtomSpec.requires_affine_arg spec = false)
                     /\ (dict_lookup items "monotonicity" = None ->
                         AtomSpec.monotonicity spec = None)
                     /\ (dict_lookup items "parameters" = None ->
                         AtomSpec.parameters spec = YList []))).
  { intros key dc part Hpart.
    destruct (parse_group_entries _ _ _ _ Hpart) as (Hempty & Hall & Hfrom).
    split; [exact Hempty|]. split; [exact Hall|].
    intros name spec Hspec.
    destruct (Hfrom name spec Hspec) as (group & data & Hlookup & Hin & Hparse).
    destruct (parse_atom_defaults _ _ _ _ Hparse)
      as (items & -> & Hname & Hcurv & _ & Hrest).
    exists group, items. auto. }
  intros key dc part [[= <- <- <-] | [[= <- <- <-] | [[= <- <- <-] | []]]];
    apply Hgroup; assumption.
Qed.

Lemma loader_defaults_witness :
  well_formed sum_doc
  /\ exists specs,
      load_specs (YMap sum_doc) = Ok specs
      /\ AtomSpecs.concave_atoms specs = ∅
      /\ is_Some (AtomSpecs.affine_atoms specs !! "sum").
Proof.
  assert (Hdoc : well_formed sum_doc).
  { split; [|split; left; reflexivity].
    right. eexists. split; [reflexivity|].
    constructor; [|constructor].
    eexists. split; [reflexivity|].
    do 3 right. exists Curvature.AFFINE. reflexivity. }
  split; [exact Hdoc|].
  destruct (loader_defaults sum_doc Hdoc) as (specs & Hload & Hparts).
  exists specs. split; [exact Hload|]. split.
  - apply (Hparts "concave_atoms" Curvature.CONCAVE).
    + right; right; left. reflexivity.
    + reflexivity.
  - apply (Hparts "affine_atoms" Curvature.AFFINE
             (AtomSpecs.affine_atoms specs))
      with (group := [("sum", YMap [("curvature", YStr "affine");
                                    ("sign", YStr "preserve")])]).
    + left. reflexivity.
    + reflexivity.
    + left. reflexivity.
Defined.

(** The entries without fields, and with a structured curvature. *)
Lemma parse_atom_default_examples :
  _parse_atom "sum" (YMap []) Curvature.AFFINE = Ok sum_spec
  /\ _parse_atom "x" (YMap [("curvature", YMap [])]) Curvature.CONVEX
     = Ok x_convex.
Proof. split; reflexivity. Qed.

(** In a loaded catalog, the partition of a group that the document does
    not have is empty. *)
Lemma load_specs_absent_group (doc : list (string * yaml))
    (specs : AtomSpecs.t) :
  load_specs (YMap doc) = Ok specs ->
  (dict_lookup doc "affine_atoms" = None -> AtomSpecs.affine_atoms specs = ∅)
  /\ (dict_lookup doc "convex_atoms" = None
      -> AtomSpecs.convex_atoms specs = ∅)
  /\ (dict_lookup doc "concave_atoms" = None
      -> AtomSpecs.concave_atoms specs = ∅).
Proof.
  unfold load_specs. intros Hload.
  destruct (parse_group doc "affine_atoms" Curvature.AFFINE) as [a|] eqn:Ha;
    [|discriminate].
  destruct (parse_group doc "convex_atoms" Curvature.CONVEX) as [c|] eqn:Hc;
    [|discriminate].
  destruct (parse_group doc "concave_atoms" Curvature.CONCAVE) as [k|] eqn:Hk;
    [|discriminate].
  cbn in Hload. injection Hload as <-. cbn.
  unfold parse_group in Ha, Hc, Hk.
  repeat split; intros Habsent;
    rewrite (dict_get_absent _ _ _ Habsent) in *; cbn in *; congruence.
Qed.

(** A document without any group loads as the empty catalog. *)
Lemma load_specs_empty_document :
  load_specs (YMap [])
  = Ok {| AtomSpecs.affine_atoms := ∅; AtomSpecs.convex_atoms := ∅;
          AtomSpecs.concave_atoms := ∅ |}.
Proof. reflexivity. Qed.

(** ** Orchestrator *)

Import run_all.

Lemma exc_bind_Raise {A B : Type} (m : exc A) (k : A -> exc B) (e : string) :
  exc_bind m k = Raise e ->
  m = Raise e \/ exists a, m = Ok a /\ k a = Raise e.
Proof. destruct m; cbn; [eauto | intros [= ->]; auto]. Qed.

(** The text of a [ValueError] of [int] is not empty. *)
Lemma py_int_Raise (s e : string) : py_int s = Raise e -> e <> "".
Proof.
  unfold py_int. intros H.
  repeat match type of H with
         | context [match ?m with _ => _ end] => destruct m
         end; inversion H; discriminate.
Qed.

Lemma unpack_counts_Raise (pieces : list string) (e : string) :
  unpack_counts pieces = Raise e -> e <> "".
Proof.
  unfold unpack_counts. intros H.
  destruct pieces as [|p1 [|p2 [|p3 rest]]];
    try (inversion H; discriminate);
    repeat match type of H with
           | exc_bind _ _ = Raise _ =>
               apply exc_bind_Raise in H as [H | [? [_ H]]];
               [eapply py_int_Raise; eassumption |]
           end;
    try (inversion H; discriminate).
Qed.

Lemma scan_lines_Raise (lines : list string) (counts : Z * Z) (e : string) :
  scan_lines lines counts = Raise e -> e <> "".
Proof.
  revert counts. induction lines as [|line rest IH]; intros counts H;
    cbn [scan_lines] in H; [discriminate|].
  destruct (contains "Validation Results:" line); [|eauto].
  destruct (contains "/" _); [|eauto].
  destruct (split_ws _) as [|nums toks]; [inversion H; discriminate|].
  apply exc_bind_Raise in H as [H | [counts' [_ H]]];
    [eapply unpack_counts_Raise; eassumption | eauto].
Qed.

(** The text of an exception of the scan for the summary line is not
    empty, so a result that carries it is shown as ERROR. *)
Lemma parse_summary_Raise (output e : string) :
  parse_summary output = Raise e -> e <> "".
Proof. apply scan_lines_Raise. Qed.

(** After a slash there is a word. *)
Lemma contains_slash_cons (c : ascii) (rest : string) :
  contains "/" (String c rest) = true ->
  c = "/"%char \/ contains "/" rest = true.
Proof.
  cbn [contains].
  destruct (String.prefix "/" (String c rest)) eqn:Hprefix; [|auto].
  intros _. left. apply String.prefix_correct in Hprefix.
  cbn in Hprefix. congruence.
Qed.

Lemma contains_slash_split_ws (s : string) :
  contains "/" s = true -> split_ws s <> [].
Proof.
  induction s as [|c rest IH]; [discriminate|].
  intros Hs. cbn [split_ws].
  destruct (is_space c) eqn:Hc.
  - apply contains_slash_cons in Hs as [-> | Hs]; [discriminate Hc|].
    apply IH. exact Hs.
  - destruct rest as [|c' rest']; [discriminate|].
    destruct (is_space c'); [discriminate|].
    destruct (split_ws (String c' rest')); discriminate.
Qed.

(** The unpacking succeeds exactly on two texts that [int] accepts. *)
Lemma unpack_counts_Ok (pieces : list string) (counts : Z * Z) :
  unpack_counts pieces = Ok counts
  <-> exists a b, pieces = [a; b]
                  /\ py_int a = Ok (fst counts)
                  /\ py_int b = Ok (snd counts).
Proof.
  split.
  - unfold unpack_counts.
    destruct pieces as [|p1 [|p2 [|p3 rest]]]; try discriminate;
      destruct (py_int p1) as [a|] eqn:Ha; cbn [exc_bind]; try discriminate;
      destruct (py_int p2) as [b|] eqn:Hb; cbn [exc_bind]; try discriminate.
    + intros [= <-]. exists p1, p2. auto.
    + destruct (py_int p3); discriminate.
  - intros (a & b & -> & Ha & Hb). cbn [unpack_counts].
    rewrite Ha, Hb. destruct counts. reflexivity.
Qed.

(** One turn of the loop of the scan. *)
Lemma scan_lines_cons (line : string) (rest : list string) (counts : Z * Z) :
  scan_lines (line :: rest) counts
  = if is_summary_line line
    then exc_bind (unpack_counts (split_char "/" (summary_token line)))
                  (scan_lines rest)
    else scan_lines rest counts.
Proof.
  cbn [scan_lines]. unfold is_summary_line, summary_token, summary_field.
  change marker with "Validation Results:".
  destruct (contains "Validation Results:" line); cbn [andb]; [|reflexivity].
  destruct (contains "/" (strip (last_piece (split_char ":" line))))
    eqn:Hslash; [|reflexivity].
  apply contains_slash_split_ws in Hslash.
  destruct (split_ws (strip (last_piece (split_char ":" line))));
    [congruence | reflexivity].
Qed.

(** A scan that succeeds has read every summary line, and its counts are
    those of the last one. *)
Lemma scan_lines_Ok (lines : list string) (start counts : Z * Z) :
  scan_lines lines start = Ok counts ->
  (forall line, In line lines -> is_summary_line line = true ->
                exists c, reads_as line c)
  /\ ((Forall (fun line => is_summary_line line = false) lines
       /\ counts = start)
      \/ exists pre line post,
          lines = pre ++ line :: post
          /\ is_summary_line line = true
          /\ Forall (fun l => is_summary_line l = false) post
          /\ reads_as line counts).
Proof.
  revert start. induction lines as [|line rest IH]; intros start.
  - intros [= <-]. split; [intros line []|]. left. auto.
  - rewrite scan_lines_cons.
    destruct (is_summary_line line) eqn:Hline.
    + destruct (unpack_counts (split_char "/" (summary_token line)))
        as [c1|] eqn:Hunpack; cbn [exc_bind]; [|discriminate].
      apply unpack_counts_Ok in Hunpack.
      intros Hrest. destruct (IH _ Hrest) as [Hall Hlast].
      split.
      * intros l [<- | Hin] Hl; [exists c1; exact Hunpack | auto].
      * right. destruct Hlast as [[Hnone ->] | (pre & l & post & -> & H)].
        -- exists [], line, rest. auto.
        -- exists (line :: pre), l, post. auto.
    + intros Hrest. destruct (IH _ Hrest) as [Hall Hlast].
      split.
      * intros l [<- | Hin] Hl; [congruence | auto].
      * destruct Hlast as [[Hnone ->] | (pre & l & post & -> & H)].
        -- left. auto.
        -- right. exists (line :: pre), l, post. auto.
Qed.

(** A scan that raises has met a summary line that does not carry two
    integers. *)
Lemma scan_lines_Raise_unreadable (lines : list string) (start : Z * Z)
    (e : string) :
  scan_lines lines start = Raise e ->
  exists line, In line lines /\ is_summary_line line = true
               /\ forall counts, ~ reads_as line counts.
Proof.
  revert start. induction lines as [|line rest IH]; intros start;
    [discriminate|].
  rewrite scan_lines_cons.
  destruct (is_summary_line line) eqn:Hline.
  - destruct (unpack_counts (split_char "/" (summary_token line)))
      as [c1|e1] eqn:Hunpack; cbn [exc_bind].
    + intros Hrest. destruct (IH _ Hrest) as (l & Hin & Hl).
      exists l. split; [right|]; auto.
    + intros _. exists line. split; [left; reflexivity|].
      split; [exact Hline|]. intros counts Hreads.
      apply unpack_counts_Ok in Hreads. congruence.
  - intros Hrest. destruct (IH _ Hrest) as (l & Hin & Hl).
    exists l. split; [right|]; auto.
Qed.

(** The scan for the summary line succeeds exactly on an output whose
    summary lines all carry two integers. *)
Lemma parse_summary_readable (output : string) :
  summary_readable output <-> exists counts, parse_summary output = Ok counts.
Proof.
  unfold summary_readable, parse_summary. split.
  - intros Hread.
    destruct (scan_lines (split_char newline output) (0, 0))
      as [counts|e] eqn:Hscan; [eauto|].
    apply scan_lines_Raise_unreadable in Hscan as (line & Hin & Hline & Hno).
    destruct (Hread line Hin Hline) as [counts Hcounts].
    exfalso. exact (Hno counts Hcounts).
  - intros [counts Hscan]. apply scan_lines_Ok in Hscan as [Hall _].
    exact Hall.
Qed.

Lemma parse_summary_unreadable (output : string) :
  summary_unreadable output <-> exists e, parse_summary output = Raise e.
Proof.
  unfold summary_unreadable, parse_summary. split.
  - intros (line & Hin & Hline & Hno).
    destruct (scan_lines (split_char newline output) (0, 0))
      as [counts|e] eqn:Hscan; [|eauto].
    apply scan_lines_Ok in Hscan as [Hall _].
    destruct (Hall line Hin Hline) as [c Hc]. exfalso. exact (Hno c Hc).
  - intros [e Hscan]. eapply scan_lines_Raise_unreadable. exact Hscan.
Qed.

Lemma parse_summary_last (output : string) (counts : Z * Z) :
  parse_summary output = Ok counts -> last_summary output counts.
Proof.
  unfold parse_summary, last_summary. intros Hscan.
  apply scan_lines_Ok in Hscan as [_ Hlast]. exact Hlast.
Qed.

(** The function decides the classification. *)
Lemma outcome_class_classified (own_handler dir_present : bool)
    (proc : run_outcome) (r : ValidatorResult) :
  ordinary proc ->
  status r = outcome_class own_handler dir_present proc ->
  (forall rc out err counts,
      dir_present = true -> proc = Completed rc out err ->
      parse_summary (out +:+ err) = Ok counts ->
      (run_all.passed r, total r) = counts) ->
  classified dir_present proc r.
Proof.
  intros Hord Hstatus Hcounts. unfold classified. rewrite Hstatus.
  clear Hstatus. unfold outcome_class, ran_with, summary_malformed.
  destruct dir_present; cbn [negb].
  2: { repeat split; try discriminate; auto.
       - intros [[=] _].
       - intros [[=] _]. }
  destruct proc as [rc out err | | msg | msg].
  - destruct (parse_summary (out +:+ err)) as [counts|e] eqn:Hscan.
    + assert (Hread : summary_readable (out +:+ err))
        by (apply parse_summary_readable; eauto).
      assert (Hnot : ~ summary_unreadable (out +:+ err)).
      { intros Hbad. apply parse_summary_unreadable in Hbad as [e He].
        congruence. }
      assert (Hlast : forall rc' out' err',
                 true = true -> Completed rc out err = Completed rc' out' err' ->
                 summary_readable (out' +:+ err') ->
                 last_summary (out' +:+ err') (run_all.passed r, total r)).
      { intros rc' out' err' _ [= <- <- <-] _.
        rewrite (Hcounts rc out err counts) by auto.
        apply parse_summary_last. exact Hscan. }
      destruct (Z.eqb_spec rc 0) as [->|Hrc].
      * split; [split; [|reflexivity]|].
        { intros _. split; [reflexivity|]. exists out, err. auto. }
        split; [split; [discriminate|]|].
        { intros (_ & rc' & Hrc' & out' & err' & [= <- <- <-] & _).
          congruence. }
        split; [split; [discriminate|] | exact Hlast].
        intros [[=] | [[=] | [[m [=]] | [[m [=]] | Hbad]]]].
        destruct Hbad as (rc' & out' & err' & [= <- <- <-] & Hbad).
        contradiction.
      * split; [split; [discriminate|]|].
        { intros (_ & out' & err' & [= -> <- <-] & _). congruence. }
        split; [split; [|reflexivity]|].
        { intros _. split; [reflexivity|]. exists rc.
          split; [exact Hrc|]. exists out, err. auto. }
        split; [split; [discriminate|] | exact Hlast].
        intros [[=] | [[=] | [[m [=]] | [[m [=]] | Hbad]]]].
        destruct Hbad as (rc' & out' & err' & [= <- <- <-] & Hbad).
        contradiction.
    + assert (Hbad : summary_unreadable (out +:+ err))
        by (apply parse_summary_unreadable; eauto).
      assert (Hnot : ~ summary_readable (out +:+ err)).
      { intros Hread. apply parse_summary_readable in Hread as [c Hc].
        congruence. }
      split; [split; [discriminate|]|].
      { intros (_ & out' & err' & [= _ <- <-] & Hread). contradiction. }
      split; [split; [discriminate|]|].
      { intros (_ & rc' & _ & out' & err' & [= <- <- <-] & Hread).
        contradiction. }
      split; [split; [|reflexivity]|].
      { intros _. do 4 right. exists rc, out, err. auto. }
      intros rc' out' err' _ [= <- <- <-] Hread. contradiction.
  - split; [split; [discriminate|]|].
    { intros (_ & out' & err' & [=] & _). }
    split; [split; [discriminate|]|].
    { intros (_ & rc' & _ & out' & err' & [=] & _). }
    split; [split; [auto | reflexivity]|].
    intros rc' out' err' _ [=].
  - cbn [ordinary] in Hord.
    assert (Hclass : (if own_handler then ERROR
                      else if String.eqb msg "" then FAIL else ERROR)
                     = ERROR).
    { destruct own_handler; [reflexivity|].
      destruct (String.eqb_spec msg ""); [contradiction | reflexivity]. }
    rewrite Hclass.
    split; [split; [discriminate|]|].
    { intros (_ & out' & err' & [=] & _). }
    split; [split; [discriminate|]|].
    { intros (_ & rc' & _ & out' & err' & [=] & _). }
    split; [split; [|reflexivity]|].
    { intros _. right; right; left. eauto. }
    intros rc' out' err' _ [=].
  - cbn [ordinary] in Hord.
    destruct (String.eqb_spec msg "") as [|_]; [contradiction|].
    split; [split; [discriminate|]|].
    { intros (_ & out' & err' & [=] & _). }
    split; [split; [discriminate|]|].
    { intros (_ & rc' & _ & out' & err' & [=] & _). }
    split; [split; [|reflexivity]|].
    { intros _. do 3 right; left. eauto. }
    intros rc' out' err' _ [=].
Qed.

(** The counts of a result are those that the scan returned. *)
Lemma completed_counts (language : string) (rc : Z) (out err : string)
    (counts : Z * Z) :
  parse_summary (out +:+ err) = Ok counts ->
  (let r := match completed language rc out err with
            | Ok r => r
            | Raise e => failed language e
            end in
   (run_all.passed r, total r)) = counts.
Proof.
  intros Hscan. unfold completed. rewrite Hscan. cbn.
  destruct counts. reflexivity.
Qed.

Lemma run_python_validator_counts (proc : run_outcome) (rc : Z)
    (out err : string) (counts : Z * Z) :
  proc = Completed rc out err ->
  parse_summary (out +:+ err) = Ok counts ->
  (run_all.passed (run_python_validator proc),
   total (run_python_validator proc)) = counts.
Proof.
  intros -> Hscan. cbn [run_python_validator].
  apply (completed_counts "python/cvxpy" rc out err counts Hscan).
Qed.

Lemma run_typescript_validator_counts (dir : string) (proc : run_outcome)
    (rc : Z) (out err : string) (counts : Z * Z) :
  proc = Completed rc out err ->
  parse_summary (out +:+ err) = Ok counts ->
  (run_all.passed (run_typescript_validator dir true proc),
   total (run_typescript_validator dir true proc)) = counts.
Proof.
  intros -> Hscan. cbn [run_typescript_validator negb].
  apply (completed_counts "typescript/cvxjs" rc out err counts Hscan).
Qed.

Lemma run_rust_validator_counts (dir : string) (proc : run_outcome)
    (rc : Z) (out err : string) (counts : Z * Z) :
  proc = Completed rc out err ->
  parse_summary (out +:+ err) = Ok counts ->
  (run_all.passed (run_rust_validator dir true proc),
   total (run_rust_validator dir true proc)) = counts.
Proof.
  intros -> Hscan. cbn [run_rust_validator negb].
  apply (completed_counts "rust/cvxrust" rc out err counts Hscan).
Qed.

(** What [status] makes of the result of each runner. *)
Lemma status_completed (language : string) (rc : Z) (out err : string) :
  status match completed language rc out err with
         | Ok r => r
         | Raise e => failed language e
         end
  = match parse_summary (out +:+ err) with
    | Ok _ => if (rc =? 0)%Z then PASS else FAIL
    | Raise _ => ERROR
    end.
Proof.
  unfold completed.
  destruct (parse_summary (out +:+ err)) as [counts|e] eqn:Escan;
    cbn [exc_bind].
  - unfold status; cbn. destruct (rc =? 0)%Z; reflexivity.
  - apply parse_summary_Raise in Escan. destruct e; [congruence|reflexivity].
Qed.

Lemma status_failed (language msg : string) :
  status (failed language msg) = if String.eqb msg "" then FAIL else ERROR.
Proof. destruct msg; reflexivity. Qed.

Lemma run_python_validator_status (proc : run_outcome) :
  status (run_python_validator proc) = outcome_class false true proc.
Proof.
  destruct proc; cbn [run_python_validator outcome_class negb];
    auto using status_completed, status_failed.
Qed.

Lemma run_typescript_validator_status (dir : string) (dir_exists : bool)
    (proc : run_outcome) :
  status (run_typescript_validator dir dir_exists proc)
  = outcome_class true dir_exists proc.
Proof.
  unfold run_typescript_validator, outcome_class.
  destruct dir_exists; cbn [negb]; [| reflexivity].
  destruct proc; auto using status_completed, status_failed.
Qed.

Lemma run_rust_validator_status (dir : string) (dir_exists : bool)
    (proc : run_outcome) :
  status (run_rust_validator dir dir_exists proc)
  = outcome_class true dir_exists proc.
Proof.
  unfold run_rust_validator, outcome_class.
  destruct dir_exists; cbn [negb]; [| reflexivity].
  destruct proc; auto using status_completed, status_failed.
Qed.

Lemma completed_from_runner (language : string) (rc : Z) (out err : string) :
  from_runner match completed language rc out err with
              | Ok r => r
              | Raise e => failed language e
              end.
Proof.
  unfold completed, from_runner.
  destruct (parse_summary (out +:+ err)); cbn; [reflexivity | discriminate].
Qed.

Lemma main_results_from_runner (w : World) (languages : list string)
    (r : ValidatorResult) :
  In r (main_results w languages) -> from_runner r.
Proof.
  assert (Hpy : from_runner (run_python_validator (python_proc w))).
  { destruct (python_proc w); cbn [run_python_validator];
      first [apply completed_from_runner | discriminate]. }
  assert (Hts : from_runner
                  (run_typescript_validator (cvxjs_dir w)
                     (cvxjs_dir_exists w) (typescript_proc w))).
  { unfold run_typescript_validator.
    destruct (cvxjs_dir_exists w); cbn [negb]; [|discriminate].
    destruct (typescript_proc w);
      first [apply completed_from_runner | discriminate]. }
  assert (Hrs : from_runner
                  (run_rust_validator (rust_dir w) (rust_dir_exists w)
                     (rust_proc w))).
  { unfold run_rust_validator.
    destruct (rust_dir_exists w); cbn [negb]; [|discriminate].
    destruct (rust_proc w);
      first [apply completed_from_runner | discriminate]. }
  unfold main_results.
  repeat match goal with
         | |- context [if ?b then _ else _] => destruct b
         end; cbn; intuition (subst; assumption).
Qed.

Lemma status_PASS_success (r : ValidatorResult) :
  from_runner r -> (status r = PASS <-> success r = true).
Proof.
  unfold from_runner, status. intros Hr.
  destruct (success r).
  - rewrite Hr by reflexivity. cbn. split; reflexivity.
  - destruct (truthy (error r)); split; discriminate.
Qed.

Lemma forallb_false_In {A : Type} (f : A -> bool) (l : list A) :
  forallb f l = false <-> exists x, In x l /\ f x = false.
Proof.
  induction l as [|a l IH]; cbn.
  - split; [discriminate | intros [x [[] _]]].
  - rewrite andb_false_iff, IH. split.
    + intros [Ha | [x [Hin Hx]]]; eauto.
    + intros [x [[-> | Hin] Hx]]; eauto.
Qed.

(** The exit status of the orchestrator: 1 iff some result is not PASS,
    else 0. *)
Lemma main_exit_status (w : World) (languages : list string) :
  (main w languages = 1
   <-> exists r, In r (main_results w languages) /\ status r <> PASS)
  /\ (main w languages = 0
      <-> forall r, In r (main_results w languages) -> status r = PASS).
Proof.
  unfold main.
  pose proof (main_results_from_runner w languages) as Hfrom.
  destruct (forallb success (main_results w languages)) eqn:Hall; cbn [negb].
  - rewrite forallb_forall in Hall.
    split; split; try discriminate; try (intros; reflexivity).
    + intros [r [Hin Hst]]. exfalso. apply Hst.
      apply status_PASS_success; auto.
    + intros _ r Hin. apply status_PASS_success; auto.
  - apply forallb_false_In in Hall as [r [Hin Hr]].
    split; split; try discriminate; try (intros; reflexivity).
    + intros _. exists r. split; [exact Hin|].
      rewrite status_PASS_success by auto. congruence.
    + intros Hpass. specialize (Hpass r Hin).
      apply status_PASS_success in Hpass; auto. congruence.
Qed.

(** C6, as stated, fails: a child that exits with code 0 after a summary
    line whose counts are not numbers is reported as ERROR, and the
    orchestrator exits with status 1. *)
Lemma zero_exit_malformed_summary_is_error :
  python_proc malformed_summary_world
  = Completed 0 "CVXPY Validation Results: a/b atoms passed" ""
  /\ parse_summary "CVXPY Validation Results: a/b atoms passed"
     = Raise "invalid literal for int() with base 10: 'a'"
  /\ status (run_python_validator (python_proc malformed_summary_world))
     = ERROR
  /\ main malformed_summary_world ["python"] = 1.
Proof. repeat split; vm_compute; reflexivity. Qed.

(** C6, amended.  For child processes whose output is ASCII text and
    whose exceptions have a text: a backend is PASS iff its directory is
    there, its child ran to the end with exit code zero and every summary
    line of the output carries two integers; FAIL iff its directory is
    there, its child ran to the end with a nonzero exit code and every
    summary line carries two integers; ERROR iff the directory is absent,
    the child timed out, it could not be started, or a summary line of
    its output does not carry two integers.  The counts of a child that
    ran to the end are those of its last summary line, and 0/0 when the
    output has none.  The orchestrator exits with 1 iff some result is not
    PASS, else with 0. *)
Theorem backend_classification (w : World) (languages : list string) :
  ordinary (python_proc w) ->
  ordinary (typescript_proc w) ->
  ordinary (rust_proc w) ->
  classified true (python_proc w) (run_python_validator (python_proc w))
  /\ classified (cvxjs_dir_exists w) (typescript_proc w)
       (run_typescript_validator (cvxjs_dir w) (cvxjs_dir_exists w)
          (typescript_proc w))
  /\ classified (rust_dir_exists w) (rust_proc w)
       (run_rust_validator (rust_dir w) (rust_dir_exists w) (rust_proc w))
  /\ (main w languages = 1
      <-> exists r, In r (main_results w languages) /\ status r <> PASS)
  /\ (main w languages = 0
      <-> forall r, In r (main_results w languages) -> status r = PASS).
Proof.
  intros Hpy Hts Hrs.
  split.
  { apply (outcome_class_classified false); [exact Hpy | |].
    - apply run_python_validator_status.
    - intros rc out err counts _. apply run_python_validator_counts. }
  split.
  { apply (outcome_class_classified true); [exact Hts | |].
    - apply run_typescript_validator_status.
    - intros rc out err counts ->. apply run_typescript_validator_counts. }
  split.
  { apply (outcome_class_classified true); [exact Hrs | |].
    - apply run_rust_validator_status.
    - intros rc out err counts ->. apply run_rust_validator_counts. }
  apply main_exit_status.
Qed.

Lemma backend_classification_witness :
  ordinary (python_proc scenario_world)
  /\ ordinary (typescript_proc scenario_world)
  /\ ordinary (rust_proc scenario_world)
  /\ classified true (python_proc scenario_world)
       (run_python_validator (python_proc scenario_world))
  /\ (main scenario_world ["all"] = 1
      <-> exists r, In r (main_results scenario_world ["all"])
                    /\ status r <> PASS).
Proof.
  assert (Hpy : ordinary (python_proc scenario_world))
    by (vm_compute; reflexivity).
  assert (Hts : ordinary (typescript_proc scenario_world))
    by (vm_compute; reflexivity).
  assert (Hrs : ordinary (rust_proc scenario_world)) by exact I.
  split; [exact Hpy|]. split; [exact Hts|]. split; [exact Hrs|].
  destruct (backend_classification scenario_world ["all"] Hpy Hts Hrs)
    as (Hclass & _ & _ & Hexit & _).
  split; [exact Hclass | exact Hexit].
Defined.

(** A missing summary line gives the counts 0/0 and does not raise. *)
Lemma scan_lines_without_summary (lines : list string) (counts : Z * Z) :
  Forall (fun line => contains "Validation Results:" line = false) lines ->
  scan_lines lines counts = Ok counts.
Proof.
  induction 1 as [|line rest Hline _ IH]; cbn [scan_lines]; [reflexivity|].
  rewrite Hline. exact IH.
Qed.

(** The scenario of the specification: PASS with 5/5, FAIL without a
    summary line, ERROR with zero counts on a timeout; the remaining
    backends still run and the exit status is 1. *)
Lemma orchestrator_scenario :
  map (fun r => (language r, status r, run_all.passed r, total r))
      (main_results scenario_world ["all"])
  = [("python/cvxpy", PASS, 5, 5); ("typescript/cvxjs", FAIL, 0, 0);
     ("rust/cvxrust", ERROR, 0, 0)]
  /\ fst (print_summary (main_results scenario_world ["all"]))
     = [("python/cvxpy", PASS, 5, 5); ("typescript/cvxjs", FAIL, 0, 0);
        ("rust/cvxrust", ERROR, 0, 0)]
  /\ snd (print_summary (main_results scenario_world ["all"])) = false
  /\ main scenario_world ["all"] = 1.
Proof. repeat split; vm_compute; reflexivity. Qed.

(** * Further properties *)

(** ** Strings *)

Lemma append_cons (c : ascii) (a b : string) :
  String c a +:+ b = String c (a +:+ b).
Proof. reflexivity. Qed.

Lemma all_chars_app (P : ascii -> bool) (a b : string) :
  all_chars P (a +:+ b) = all_chars P a && all_chars P b.
Proof.
  induction a as [|c a IH]; [reflexivity|].
  rewrite append_cons. cbn [all_chars]. rewrite IH, andb_assoc. reflexivity.
Qed.

Lemma all_chars_impl (P Q : ascii -> bool) (s : string) :
  (forall c, P c = true -> Q c = true) ->
  all_chars P s = true -> all_chars Q s = true.
Proof.
  intros HPQ. induction s as [|c s IH]; cbn [all_chars]; [reflexivity|].
  rewrite !andb_true_iff. intros [Hc Hs]. auto.
Qed.

Lemma split_char_nonempty (sep : ascii) (s : string) : split_char sep s <> [].
Proof.
  destruct s as [|c s]; cbn [split_char]; [discriminate|].
  destruct (Ascii.eqb c sep); [discriminate|].
  destruct (split_char sep s); discriminate.
Qed.

(** [(a + sep + b).split(sep) == a.split(sep) + b.split(sep)]. *)
Lemma split_char_app_sep (sep : ascii) (a b : string) :
  split_char sep (a +:+ String sep b) = split_char sep a ++ split_char sep b.
Proof.
  induction a as [|c a IH]; [| rewrite append_cons]; cbn [split_char].
  - change ("" +:+ String sep b) with (String sep b). cbn [split_char].
    rewrite Ascii.eqb_refl. reflexivity.
  - destruct (Ascii.eqb c sep); rewrite IH; [reflexivity|].
    pose proof (split_char_nonempty sep a) as Hne.
    destruct (split_char sep a); [congruence | reflexivity].
Qed.

Lemma split_char_no_sep (sep : ascii) (s : string) :
  all_chars (fun c => negb (Ascii.eqb c sep)) s = true ->
  split_char sep s = [s].
Proof.
  induction s as [|c s IH]; cbn [all_chars split_char]; [reflexivity|].
  rewrite andb_true_iff, negb_true_iff. intros [-> Hs].
  rewrite (IH Hs). reflexivity.
Qed.

Lemma rstrip_not_space (s : string) :
  all_chars not_space s = true -> rstrip s = s.
Proof.
  induction s as [|c s IH]; cbn [all_chars rstrip]; [reflexivity|].
  rewrite andb_true_iff. unfold not_space at 1. rewrite negb_true_iff.
  intros [Hc Hs]. rewrite (IH Hs), Hc. destruct s; reflexivity.
Qed.

Lemma strip_not_space (s : string) :
  all_chars not_space s = true -> strip s = s.
Proof.
  intros Hs. unfold strip.
  assert (Hl : lstrip s = s).
  { destruct s as [|c s]; [reflexivity|]. cbn [all_chars lstrip] in *.
    apply andb_true_iff in Hs as [Hc _]. unfold not_space in Hc.
    apply negb_true_iff in Hc. rewrite Hc. reflexivity. }
  rewrite Hl. apply rstrip_not_space, Hs.
Qed.

Lemma is_digit_not_space (c : ascii) : is_digit c = true -> not_space c = true.
Proof.
  unfold is_digit, digit, not_space, is_space. cbv zeta.
  generalize (Z.of_N (N_of_ascii c)). intros n.
  destruct (Z.leb_spec 48 n), (Z.leb_spec n 57); cbn; try discriminate.
  intros _.
  destruct (Z.leb_spec 9 n), (Z.leb_spec n 13), (Z.leb_spec 28 n),
    (Z.leb_spec n 32); cbn; try reflexivity; lia.
Qed.

Lemma string_of_uint_digits (d : Decimal.uint) :
  all_chars is_digit (DecimalString.NilEmpty.string_of_uint d) = true.
Proof.
  induction d; cbn [DecimalString.NilEmpty.string_of_uint all_chars];
    rewrite ?IHd; reflexivity.
Qed.

Lemma str_of_nat_digits (n : nat) : all_chars is_digit (str_of_nat n) = true.
Proof.
  unfold str_of_nat, DecimalString.NilZero.string_of_uint.
  destruct (Nat.to_uint n); first [reflexivity | apply string_of_uint_digits].
Qed.

(** Reading the digits of a numeral continues the accumulator as
    [Nat.of_uint_acc] does. *)
Lemma scan_digits_string_of_uint (d : Decimal.uint) (acc k : nat) :
  scan_digits (DecimalString.NilEmpty.string_of_uint d) (Z.of_nat acc) k false
  = Some (Z.of_nat (Nat.of_uint_acc d acc),
          (k + String.length (DecimalString.NilEmpty.string_of_uint d))%nat,
          EmptyString).
Proof.
  revert acc k.
  induction d; intros acc k;
    cbn [DecimalString.NilEmpty.string_of_uint scan_digits Nat.of_uint_acc
         String.length];
    [ do 3 f_equal; lia | .. ];
    match goal with
    | |- context [digit ?c] =>
        let v := eval vm_compute in (digit c) in change (digit c) with v
    end;
    cbv iota;
    match goal with
    | |- scan_digits _ ?z _ _
         = Some (Z.of_nat (Nat.of_uint_acc _ ?a), _, _) =>
        replace z with (Z.of_nat a) by (rewrite Nat.tail_mul_spec; lia)
    end;
    rewrite IHd; do 3 f_equal; lia.
Qed.

(** [int] reads back what [str] prints: for a non-negative integer of at
    most 4300 digits, [int(str(n)) == n]. *)
Lemma py_int_str_of_nat (n : nat) :
  (String.length (str_of_nat n) <= max_str_digits)%nat ->
  py_int (str_of_nat n) = Ok (Z.of_nat n).
Proof.
  intros Hlen.
  pose proof (DecimalNat.Unsigned.of_to n) as Hn.
  unfold py_int.
  unfold str_of_nat, DecimalString.NilZero.string_of_uint in *.
  unfold Nat.of_uint in Hn.
  destruct (Nat.to_uint n) as [|d|d|d|d|d|d|d|d|d|d];
    [ cbn in Hn; subst n; reflexivity | .. ];
    cbn [DecimalString.NilEmpty.string_of_uint String.length
         Nat.of_uint_acc skip_int_space] in *;
    match goal with
    | |- context [is_int_space ?c] =>
        let v := eval vm_compute in (is_int_space c) in
        change (is_int_space c) with v
    end;
    cbv iota beta zeta;
    cbn [scan_digits];
    match goal with
    | |- context [digit ?c] =>
        let v := eval vm_compute in (digit c) in change (digit c) with v
    end;
    cbv iota;
    match goal with
    | |- context [scan_digits _ ?z 1 false] =>
        match type of Hn with
        | Nat.of_uint_acc _ ?a = _ =>
            replace z with (Z.of_nat a) by (cbn; lia)
        end
    end;
    rewrite scan_digits_string_of_uint, Hn;
    (destruct (Nat.ltb_spec max_str_digits
                 (1 + String.length
                        (DecimalString.NilEmpty.string_of_uint d)));
     [lia|]);
    reflexivity.
Qed.

Lemma append_assoc' (a b c : string) : (a +:+ b) +:+ c = a +:+ (b +:+ c).
Proof.
  induction a as [|x a IH]; [reflexivity|].
  rewrite !append_cons, IH. reflexivity.
Qed.

Lemma contains_app_r (sub a b : string) :
  contains sub b = true -> contains sub (a +:+ b) = true.
Proof.
  intros Hb. induction a as [|c a IH]; [exact Hb|].
  rewrite append_cons. cbn [contains]. rewrite IH.
  destruct (String.prefix sub (String c (a +:+ b))); reflexivity.
Qed.

Lemma rstrip_app_keep (a b : string) :
  rstrip b = b -> b <> "" -> rstrip (a +:+ b) = a +:+ b.
Proof.
  intros Hb Hne. induction a as [|c a IH]; [exact Hb|].
  rewrite append_cons. cbn [rstrip]. rewrite IH.
  destruct (a +:+ b) eqn:Hab; [|reflexivity].
  destruct a; [change ("" +:+ b) with b in Hab; congruence | discriminate].
Qed.

(** The first token of [s.split()] when [s] starts with a run of
    non-whitespace characters followed by a space. *)
Lemma split_ws_first (tok rest : string) (sp : ascii) :
  all_chars not_space tok = true -> tok <> "" -> is_space sp = true ->
  exists toks, split_ws (tok +:+ String sp rest) = tok :: toks.
Proof.
  intros Htok Hne Hsp. induction tok as [|c tok IH]; [congruence|].
  cbn [all_chars] in Htok. apply andb_true_iff in Htok as [Hc Htok].
  unfold not_space in Hc. apply negb_true_iff in Hc.
  rewrite append_cons. cbn [split_ws]. rewrite Hc. destruct tok as [|c' tok].
  - change ("" +:+ String sp rest) with (String sp rest). cbv beta iota.
    rewrite Hsp. eauto.
  - destruct IH as [toks IH]; [exact Htok | discriminate |].
    rewrite IH. rewrite append_cons. cbv beta iota.
    cbn [all_chars] in Htok. apply andb_true_iff in Htok as [Hc' _].
    unfold not_space in Hc'. apply negb_true_iff in Hc'.
    rewrite Hc'. eauto.
Qed.

Lemma str_of_nat_nonempty (n : nat) : str_of_nat n <> "".
Proof.
  unfold str_of_nat, DecimalString.NilZero.string_of_uint.
  destruct (Nat.to_uint n); discriminate.
Qed.

Lemma digits_not (sep : ascii) (s : string) :
  is_digit sep = false ->
  all_chars is_digit s = true ->
  all_chars (fun c => negb (Ascii.eqb c sep)) s = true.
Proof.
  intros Hsep. apply all_chars_impl. intros c Hc.
  destruct (Ascii.eqb_spec c sep) as [->|]; [congruence | reflexivity].
Qed.

(** The scan reads the counts back from a summary line and goes on with
    them. *)
Lemma scan_summary_line (n_passed total : nat) (rest : list string)
    (counts : Z * Z) :
  (String.length (str_of_nat n_passed) <= max_str_digits)%nat ->
  (String.length (str_of_nat total) <= max_str_digits)%nat ->
  run_all.scan_lines (summary_line n_passed total :: rest) counts
  = run_all.scan_lines rest (Z.of_nat n_passed, Z.of_nat total).
Proof.
  intros Hp Ht.
  pose proof (str_of_nat_digits n_passed) as Dp.
  pose proof (str_of_nat_digits total) as Dt.
  set (P := str_of_nat n_passed) in *. set (T := str_of_nat total) in *.
  cbn [run_all.scan_lines].
  replace (contains "Validation Results:" (summary_line n_passed total))
    with true by reflexivity.
  (* the text after the last colon *)
  assert (Hsplit : split_char ":" (summary_line n_passed total)
                   = ["CVXPY Validation Results";
                      " " +:+ P +:+ "/" +:+ T +:+ " atoms passed"]).
  { change (summary_line n_passed total)
      with ("CVXPY Validation Results"
            +:+ String ":" (" " +:+ P +:+ "/" +:+ T +:+ " atoms passed")).
    rewrite split_char_app_sep.
    rewrite (split_char_no_sep ":" (" " +:+ _)); [reflexivity|].
    rewrite !all_chars_app.
    rewrite (digits_not ":" P), (digits_not ":" T)
      by (reflexivity || assumption).
    reflexivity. }
  rewrite Hsplit. cbn [last_piece List.last].
  (* stripped *)
  assert (Hstrip : strip (" " +:+ P +:+ "/" +:+ T +:+ " atoms passed")
                   = P +:+ "/" +:+ T +:+ " atoms passed").
  { unfold strip.
    change (lstrip (" " +:+ P +:+ "/" +:+ T +:+ " atoms passed"))
      with (lstrip (P +:+ "/" +:+ T +:+ " atoms passed")).
    assert (Hl : lstrip (P +:+ "/" +:+ T +:+ " atoms passed")
                 = P +:+ "/" +:+ T +:+ " atoms passed").
    { pose proof (str_of_nat_nonempty n_passed) as Hne. fold P in Hne.
      destruct P as [|c P']; [congruence|].
      rewrite append_cons. cbn [lstrip].
      cbn [all_chars] in Dp. apply andb_true_iff in Dp as [Dc _].
      apply is_digit_not_space in Dc. unfold not_space in Dc.
      apply negb_true_iff in Dc. rewrite Dc. reflexivity. }
    rewrite Hl.
    apply rstrip_app_keep; [|discriminate].
    apply (rstrip_app_keep "/"); [|destruct T; discriminate].
    apply rstrip_app_keep; [reflexivity | discriminate]. }
  rewrite Hstrip.
  rewrite (contains_app_r "/" P)
    by (destruct T; reflexivity).
  (* the first token *)
  destruct (split_ws_first (P +:+ "/" +:+ T) "atoms passed" " ")
    as [toks Htoks].
  { rewrite !all_chars_app.
    rewrite (all_chars_impl _ _ _ is_digit_not_space Dp),
      (all_chars_impl _ _ _ is_digit_not_space Dt). reflexivity. }
  { pose proof (str_of_nat_nonempty n_passed) as Hne. fold P in Hne.
    destruct P; [congruence | discriminate]. }
  { reflexivity. }
  rewrite !append_assoc' in Htoks.
  change (" atoms passed") with (String " " "atoms passed").
  change ("/" +:+ T +:+ String " " "atoms passed")
    with ("/" +:+ (T +:+ String " " "atoms passed")) in Htoks.
  rewrite Htoks.
  (* the two numbers *)
  change (P +:+ "/" +:+ T) with (P +:+ String "/" T).
  rewrite split_char_app_sep,
    !(split_char_no_sep "/") by (apply digits_not; [reflexivity|assumption]).
  cbn [app run_all.unpack_counts].
  subst P T. rewrite !py_int_str_of_nat by assumption.
  reflexivity.
Qed.

(** ** From the validator's report to the orchestrator's counts *)

(** A line without a capital V does not carry the marker. *)
Lemma no_V_contains_marker (s : string) :
  all_chars no_V s = true -> contains marker s = false.
Proof.
  induction s as [|c s IH]; [reflexivity|].
  cbn [all_chars]. rewrite andb_true_iff. intros [Hc Hs].
  cbn [contains]. rewrite (IH Hs).
  unfold no_V in Hc. apply negb_true_iff in Hc.
  unfold marker. cbn [String.prefix].
  destruct (ascii_dec "V" c) as [<-|_]; [discriminate | reflexivity].
Qed.

Lemma split_char_all_chars (P : ascii -> bool) (sep : ascii) (s : string) :
  all_chars P s = true ->
  Forall (fun line => all_chars P line = true) (split_char sep s).
Proof.
  induction s as [|c s IH]; cbn [all_chars split_char].
  - repeat constructor.
  - rewrite andb_true_iff. intros [Hc Hs]. specialize (IH Hs).
    destruct (Ascii.eqb c sep); [constructor; [reflexivity | exact IH]|].
    destruct (split_char sep s) as [|piece pieces];
      [repeat constructor; cbn; rewrite Hc; reflexivity|].
    inversion IH as [|? ? Hpiece Hpieces]; subst.
    constructor; [cbn [all_chars]; rewrite Hc, Hpiece; reflexivity|].
    exact Hpieces.
Qed.

Lemma no_V_quiet_text (s : string) : all_chars no_V s = true -> quiet_text s.
Proof.
  intros Hs. unfold quiet_text.
  eapply Forall_impl; [apply split_char_all_chars, Hs |].
  intros line. apply no_V_contains_marker.
Qed.

Lemma digits_no_V (s : string) :
  all_chars is_digit s = true -> all_chars no_V s = true.
Proof. apply (digits_not "V"). reflexivity. Qed.

(** The lines of what a sequence of [print] calls wrote, followed by more
    text. *)
Lemma split_stdout_of (prints : list string) (rest : string) :
  split_char run_all.newline (stdout_of prints +:+ rest)
  = concat (map (split_char run_all.newline) prints)
    ++ split_char run_all.newline rest.
Proof.
  induction prints as [|s prints IH]; [reflexivity|].
  cbn [stdout_of map concat].
  rewrite append_assoc', append_cons, split_char_app_sep, IH, app_assoc.
  reflexivity.
Qed.

Lemma quiet_lines_concat (prints : list string) :
  Forall quiet_text prints ->
  Forall (fun line => contains marker line = false)
         (concat (map (split_char run_all.newline) prints)).
Proof.
  induction 1 as [|s prints Hs _ IH]; cbn [map concat]; [constructor|].
  apply Forall_app. split; assumption.
Qed.

(** Lines without the marker leave the counts as they are. *)
Lemma scan_lines_quiet_app (pre rest : list string) (counts : Z * Z) :
  Forall (fun line => contains marker line = false) pre ->
  run_all.scan_lines (pre ++ rest) counts = run_all.scan_lines rest counts.
Proof.
  induction 1 as [|line pre Hline _ IH]; [reflexivity|].
  cbn [app run_all.scan_lines]. unfold marker in Hline. rewrite Hline.
  exact IH.
Qed.

Lemma curvature_message_no_V (expr : Expression) (expected : Curvature.t) :
  all_chars no_V (snd (check_curvature expr expected)) = true.
Proof.
  unfold check_curvature, curvature_actual; cbn [snd].
  destruct expected, (is_constant expr), (is_affine expr), (is_convex expr),
    (is_concave expr); reflexivity.
Qed.

Lemma sign_message_no_V (expr : Expression) (expected : Sign.t) :
  all_chars no_V (snd (check_sign expr expected)) = true.
Proof.
  unfold check_sign, sign_actual; cbn [snd].
  destruct expected, (is_nonneg expr), (is_nonpos expr); reflexivity.
Qed.

(** What a result of [validate_atom] can print about its failures has no
    capital V, provided the name of the atom has none. *)
Lemma validate_atom_tidy (cvxpy : cp.lib) (atom_name : string)
    (spec : AtomSpec.t) :
  all_chars no_V atom_name = true ->
  tidy (fst (validate_atom cvxpy atom_name spec)).
Proof.
  intros Hname. unfold validate_atom, tidy.
  destruct (dict_lookup (ATOM_MAP cvxpy) atom_name) as [atom_func|].
  - destruct (create_test_expression atom_name atom_func) as [[expr|] out].
    + pose proof (curvature_message_no_V expr (AtomSpec.curvature spec)) as Hc.
      pose proof (sign_message_no_V expr (AtomSpec.sign spec)) as Hs.
      pose proof (check_dcp_always_passes cvxpy atom_name atom_func spec)
        as Hd.
      destruct (check_curvature expr (AtomSpec.curvature spec)) as [cp cm].
      destruct (check_sign expr (AtomSpec.sign spec)) as [sp sm].
      destruct (check_dcp_with_non_affine cvxpy atom_name atom_func spec)
        as [dp dm].
      cbn [fst snd validate_cvxpy.atom_name checks app] in *.
      split; [exact Hname|]. subst dp.
      repeat (constructor; [cbn [fst snd]; intros Hfail|]);
        try discriminate; [| | constructor];
        (split; [reflexivity | assumption]).
    + cbn [fst snd validate_cvxpy.atom_name checks app].
      split; [exact Hname|].
      constructor; [cbn [fst snd]; discriminate|].
      constructor; [|constructor].
      cbn [fst snd]. intros _. split; reflexivity.
  - cbn [fst snd validate_cvxpy.atom_name checks app]. split; [exact Hname|].
    constructor; [|constructor].
    cbn [fst snd]. intros _. split; [reflexivity|].
    rewrite !all_chars_app, Hname. reflexivity.
Qed.

Lemma validate_names_tidy (cvxpy : cp.lib) (specs : AtomSpecs.t)
    (names : list string) :
  Forall (fun n => all_chars no_V n = true) names ->
  Forall tidy (fst (validate_names cvxpy specs names)).
Proof.
  induction 1 as [|n names Hn _ IH]; cbn [validate_names]; [constructor|].
  destruct (AtomSpecs.get specs n) as [spec|]; [|exact IH].
  pose proof (validate_atom_tidy cvxpy n spec Hn) as Hr.
  destruct (validate_atom cvxpy n spec) as [r out].
  destruct (validate_names cvxpy specs names) as [rs out'].
  constructor; assumption.
Qed.

Lemma validate_all_tidy (cvxpy : cp.lib) (specs : AtomSpecs.t) :
  Forall tidy (fst (validate_all cvxpy specs)).
Proof.
  apply validate_names_tidy. unfold ATOM_MAP. cbn [map fst].
  repeat constructor.
Qed.

Lemma failure_lines_no_V (r : ValidationResult) :
  tidy r -> Forall (fun line => all_chars no_V line = true) (failure_lines r).
Proof.
  intros [Hname Hchecks]. unfold failure_lines. constructor.
  - rewrite !all_chars_app, Hname. reflexivity.
  - unfold failed_checks.
    induction Hchecks as [|c cs Hc _ IH]; [constructor|].
    rewrite filter_cons. destruct (decide (negb (snd (fst c)) = true)) as [Hf|];
      [|exact IH].
    cbn [map]. constructor; [|exact IH].
    apply negb_true_iff in Hf. destruct (Hc Hf) as [Hn Hm].
    rewrite !all_chars_app, Hn, Hm. reflexivity.
Qed.

Lemma Forall_filter_keep {A : Type} (P : A -> Prop) (Q : A -> Prop)
    `{forall x, Decision (Q x)} (l : list A) :
  Forall P l -> Forall P (filter Q l).
Proof.
  induction 1 as [|x l Hx _ IH]; [constructor|].
  rewrite filter_cons. destruct (decide (Q x)); [constructor|]; assumption.
Qed.

(** After its summary line, [print_results] prints nothing that has a
    capital V. *)
Lemma print_results_shape (results : list ValidationResult) :
  Forall tidy results ->
  exists tail,
    print_results results
    = [nl +:+ repeat_char "=" 60;
       summary_line (length (filter (fun r => validate_cvxpy.passed r = true) results))
                    (length results)]
      ++ tail
    /\ Forall (fun line => all_chars no_V line = true) tail.
Proof.
  intros Htidy. unfold print_results. eexists. split; [reflexivity|].
  constructor; [reflexivity|].
  apply Forall_app. split; [|apply Forall_app; split].
  - pose proof (Forall_filter_keep tidy
                  (fun r => negb (validate_cvxpy.passed r) = true) results Htidy) as Hf.
    destruct (filter (fun r => negb (validate_cvxpy.passed r) = true) results) as [|r rs];
      [constructor|].
    constructor; [reflexivity|]. constructor; [reflexivity|].
    induction Hf as [|x xs Hx _ IH]; [constructor|].
    cbn [flat_map]. apply Forall_app. split; [|exact IH].
    apply failure_lines_no_V, Hx.
  - pose proof (Forall_filter_keep tidy
                  (fun r => validate_cvxpy.passed r = true) results Htidy) as Hs.
    destruct (filter (fun r => validate_cvxpy.passed r = true) results) as [|r rs];
      [constructor|].
    constructor.
    { rewrite !all_chars_app, (digits_no_V _ (str_of_nat_digits _)).
      reflexivity. }
    constructor; [reflexivity|].
    induction Hs as [|x xs [Hx _] _ IH]; [constructor|].
    cbn [map]. constructor; [|exact IH].
    rewrite all_chars_app, Hx. reflexivity.
  - repeat constructor.
Qed.

Lemma validate_names_length (cvxpy : cp.lib) (specs : AtomSpecs.t)
    (names : list string) :
  (length (fst (validate_names cvxpy specs names)) <= length names)%nat.
Proof.
  induction names as [|n names IH]; cbn [validate_names]; [reflexivity|].
  destruct (AtomSpecs.get specs n) as [spec|]; [|cbn [length]; lia].
  destruct (validate_atom cvxpy n spec) as [r out].
  destruct (validate_names cvxpy specs names) as [rs out'].
  cbn [fst length] in *. lia.
Qed.

Lemma validate_all_length (cvxpy : cp.lib) (specs : AtomSpecs.t) :
  (length (fst (validate_all cvxpy specs)) <= 22)%nat.
Proof. apply (validate_names_length cvxpy specs (map fst (ATOM_MAP cvxpy))). Qed.

Lemma str_of_nat_short (n : nat) :
  (n <= 22)%nat -> (String.length (str_of_nat n) <= max_str_digits)%nat.
Proof.
  intros Hn. transitivity 2%nat; [|unfold max_str_digits; lia].
  do 23 (destruct n as [|n]; [vm_compute; lia|]). lia.
Qed.

Lemma count_failures_zero (results : list ValidationResult) :
  (Z.of_nat (length (filter (fun r => negb (validate_cvxpy.passed r) = true)
                        results)) =? 0)%Z
  = forallb validate_cvxpy.passed results.
Proof.
  induction results as [|r rs IH]; [reflexivity|].
  rewrite filter_cons. cbn [forallb].
  destruct (validate_cvxpy.passed r); cbn [negb andb].
  - rewrite decide_False by discriminate. exact IH.
  - rewrite decide_True by reflexivity. cbn [length].
    apply Z.eqb_neq. lia.
Qed.

(** ** The validator *)

Lemma dict_lookup_In {A : Type} (items : list (string * A)) (key : string) :
  In key (map fst items) -> exists v, dict_lookup items key = Some v.
Proof.
  induction items as [|[k v] items IH]; cbn; [intros []|].
  destruct (String.eqb_spec k key); [eauto|].
  intros [Hk | Hin]; [congruence | auto].
Qed.

(** X1. [validate_all] returns one result per key of [ATOM_MAP] that the
    catalog knows, in the order of [ATOM_MAP], and nothing else: an atom of
    the catalog that [ATOM_MAP] does not name is never validated, and there
    are at most 22 results. *)
Theorem validate_all_coverage (cvxpy : cp.lib) (specs : AtomSpecs.t) :
  map atom_name (fst (validate_all cvxpy specs))
  = List.filter (fun n => bool_decide (is_Some (AtomSpecs.get specs n)))
                (map fst (ATOM_MAP cvxpy))
  /\ (forall n, In n (map atom_name (fst (validate_all cvxpy specs)))
                <-> In n (map fst (ATOM_MAP cvxpy))
                    /\ is_Some (AtomSpecs.get specs n))
  /\ (length (fst (validate_all cvxpy specs)) <= 22)%nat.
Proof.
  pose proof (validate_names_atoms cvxpy specs (map fst (ATOM_MAP cvxpy)))
    as Hnames.
  split; [exact Hnames|]. split; [|apply validate_all_length].
  intros n. unfold validate_all. rewrite Hnames, filter_In.
  rewrite bool_decide_eq_true. reflexivity.
Qed.

(** The first check of a result for a key of [ATOM_MAP]. *)
Lemma validate_atom_exists (cvxpy : cp.lib) (n : string) (spec : AtomSpec.t) :
  In n (map fst (ATOM_MAP cvxpy)) ->
  exists rest,
    checks (fst (validate_atom cvxpy n spec))
    = ("exists", true, "atom exists in cvxpy") :: rest.
Proof.
  intros Hin. apply dict_lookup_In in Hin as [f Hf].
  unfold validate_atom. rewrite Hf.
  destruct (create_test_expression n f) as [[expr|] out]; [|cbn; eauto].
  destruct (check_curvature expr (AtomSpec.curvature spec)),
    (check_sign expr (AtomSpec.sign spec)),
    (check_dcp_with_non_affine cvxpy n f spec). cbn. eauto.
Qed.

Lemma validate_names_exists (cvxpy : cp.lib) (specs : AtomSpecs.t)
    (names : list string) :
  (forall n, In n names -> In n (map fst (ATOM_MAP cvxpy))) ->
  Forall (fun r => exists rest,
              checks r = ("exists", true, "atom exists in cvxpy") :: rest)
         (fst (validate_names cvxpy specs names)).
Proof.
  induction names as [|n names IH]; intros Hsub; cbn [validate_names];
    [constructor|].
  assert (IH' := IH (fun m Hm => Hsub m (or_intror Hm))).
  destruct (AtomSpecs.get specs n) as [spec|]; [|exact IH'].
  pose proof (validate_atom_exists cvxpy n spec (Hsub n (or_introl eq_refl)))
    as Hn.
  destruct (validate_atom cvxpy n spec) as [r out].
  destruct (validate_names cvxpy specs names) as [rs out'].
  constructor; assumption.
Qed.

(** X2. In a run of [validate_all] the existence check never fails: every
    result starts with the passed [exists] check, so every failure that
    [main] counts is a construction, curvature or sign failure. *)
Theorem validate_all_exists_passes (cvxpy : cp.lib) (specs : AtomSpecs.t) :
  Forall (fun r => exists rest,
              checks r = ("exists", true, "atom exists in cvxpy") :: rest)
         (fst (validate_all cvxpy specs)).
Proof. apply validate_names_exists. auto. Qed.

(** X3. An atom passes exactly when it is mapped, its test expression is
    built, and the curvature and the sign checks pass: the composition
    check never decides the outcome. *)
Theorem validate_atom_passed_iff (cvxpy : cp.lib) (n : string)
    (spec : AtomSpec.t) :
  validate_cvxpy.passed (fst (validate_atom cvxpy n spec)) = true
  <-> exists atom_func expr,
        dict_lookup (ATOM_MAP cvxpy) n = Some atom_func
        /\ fst (create_test_expression n atom_func) = Some expr
        /\ fst (check_curvature expr (AtomSpec.curvature spec)) = true
        /\ fst (check_sign expr (AtomSpec.sign spec)) = true.
Proof.
  unfold validate_atom.
  destruct (dict_lookup (ATOM_MAP cvxpy) n) as [f|];
    [| split; [discriminate | intros (? & ? & [=] & _)]].
  destruct (create_test_expression n f) as [[expr|] out] eqn:Hcre;
    cbn [fst];
    [| split; [discriminate | intros (f' & ? & [= <-] & Hcre' & _)];
       rewrite Hcre in Hcre'; discriminate].
  pose proof (check_dcp_always_passes cvxpy n f spec) as Hd.
  destruct (check_curvature expr (AtomSpec.curvature spec)) as [cp cm] eqn:Ec.
  destruct (check_sign expr (AtomSpec.sign spec)) as [sp sm] eqn:Es.
  destruct (check_dcp_with_non_affine cvxpy n f spec) as [dp dm].
  cbn [fst] in Hd. subst dp.
  cbn [fst validate_cvxpy.passed forallb app snd].
  split.
  - intros Hall. exists f, expr. rewrite Hcre, Ec, Es. cbn [fst].
    destruct cp, sp; try discriminate. auto.
  - intros (f' & expr' & [= <-] & Hcre' & Hc & Hs).
    rewrite Hcre in Hcre'. injection Hcre' as <-.
    rewrite Ec in Hc. rewrite Es in Hs. cbn [fst] in Hc, Hs. subst cp sp.
    reflexivity.
Qed.

(** X4. A result of [validate_atom] passes exactly when it has no failed
    check: a failing atom always has a failure to report. *)
Theorem validate_atom_failed_checks (cvxpy : cp.lib) (n : string)
    (spec : AtomSpec.t) :
  validate_cvxpy.passed (fst (validate_atom cvxpy n spec)) = true
  <-> failed_checks (fst (validate_atom cvxpy n spec)) = [].
Proof.
  unfold validate_atom, failed_checks.
  destruct (dict_lookup (ATOM_MAP cvxpy) n) as [f|];
    [| cbn; split; discriminate].
  destruct (create_test_expression n f) as [[expr|] out];
    [| cbn; split; discriminate].
  destruct (check_curvature expr (AtomSpec.curvature spec)) as [[] cm],
    (check_sign expr (AtomSpec.sign spec)) as [[] sm],
    (check_dcp_with_non_affine cvxpy n f spec) as [[] dm];
    cbn; split; first [reflexivity | discriminate].
Qed.

(** X5. A failed curvature check never reads "expected X, got X": the
    classification it reports differs from the expected curvature. *)
Theorem check_curvature_failure_differs (expr : Expression)
    (expected : Curvature.t) :
  fst (check_curvature expr expected) = false ->
  curvature_actual expr <> Curvature.value expected.
Proof.
  unfold check_curvature, curvature_actual; cbn [fst].
  destruct expected, (is_constant expr), (is_affine expr), (is_convex expr),
    (is_concave expr); cbn; intros H; discriminate.
Qed.

Lemma check_curvature_failure_differs_witness :
  fst (check_curvature convex_expr Curvature.CONCAVE) = false
  /\ curvature_actual convex_expr <> Curvature.value Curvature.CONCAVE.
Proof.
  split; [reflexivity|].
  apply (check_curvature_failure_differs convex_expr Curvature.CONCAVE).
  reflexivity.
Defined.

(** X6. A failed sign check never reads "expected X, got X". *)
Theorem check_sign_failure_differs (expr : Expression) (expected : Sign.t) :
  fst (check_sign expr expected) = false ->
  sign_actual expr <> Sign.value expected.
Proof.
  unfold check_sign, sign_actual; cbn [fst].
  destruct expected, (is_nonneg expr), (is_nonpos expr); cbn; intros H;
    discriminate.
Qed.

Lemma check_sign_failure_differs_witness :
  fst (check_sign convex_expr Sign.ZERO) = false
  /\ sign_actual convex_expr <> Sign.value Sign.ZERO.
Proof.
  split; [reflexivity|].
  apply (check_sign_failure_differs convex_expr Sign.ZERO). reflexivity.
Defined.

(** X8. The exit count of the validator is at most 22, so it is the exit
    status of the process as it is, and it is 0 exactly when every
    validated atom passed. *)
Theorem validator_exit_count (cvxpy : cp.lib) (specs : AtomSpecs.t) :
  (validate_cvxpy.main cvxpy specs <= 22)%nat
  /\ (validate_cvxpy.main cvxpy specs = 0%nat
      <-> forallb validate_cvxpy.passed (fst (validate_all cvxpy specs))
          = true).
Proof.
  pose proof (validate_all_length cvxpy specs) as Hlen.
  pose proof (count_failures_zero (fst (validate_all cvxpy specs))) as Hzero.
  unfold validate_cvxpy.main.
  destruct (validate_all cvxpy specs) as [results out]. cbn [fst] in *.
  split.
  - etransitivity; [apply length_filter | exact Hlen].
  - rewrite <- Hzero, Z.eqb_eq. lia.
Qed.

(** ** The loader *)

(** X9. Among the entries that are mappings, [_parse_atom] raises exactly
    on a curvature entry that is neither a mapping, nor [preserve], nor the
    value of a member of [Curvature]; no other field can make it fail. *)
Theorem parse_atom_raises_iff (name : string) (items : list (string * yaml))
    (default_curvature : Curvature.t) :
  (exists e, _parse_atom name (YMap items) default_curvature = Raise e)
  <-> exists raw,
        dict_lookup items "curvature" = Some raw
        /\ (forall rule, raw <> YMap rule)
        /\ raw <> YStr "preserve"
        /\ (forall c, raw <> YStr (Curvature.value c)).
Proof.
  unfold _parse_atom, dict_get.
  destruct (dict_lookup items "curvature") as [raw|] eqn:Hraw.
  - destruct raw as [| | |s| |rule];
      try (split;
           [ intros _; eexists; split; [reflexivity|];
             repeat split; try discriminate; intros []; discriminate
           | intros _; eexists; reflexivity ]).
    + (* a string *)
      cbn [yaml_eq_str].
      destruct (String.eqb_spec s "preserve") as [->|Hpres]; cbn [negb].
      * split; [intros [e [=]] | intros (raw & [= <-] & _ & Hp & _); congruence].
      * destruct (Curvature.of_value (YStr s)) as [c|e] eqn:Hof; cbn [exc_bind].
        -- apply of_value_Ok in Hof.
           split; [intros [e [=]]|].
           intros (raw & [= <-] & _ & _ & Hc). exfalso. exact (Hc c Hof).
        -- split; [|eauto]. intros _. exists (YStr s).
           split; [reflexivity|]. split; [discriminate|].
           split; [congruence|]. intros c [= ->].
           rewrite of_value_value in Hof. discriminate.
    + (* a mapping *)
      split; [intros [e [=]] | intros (raw & [= <-] & Hm & _)].
      exfalso. exact (Hm rule eq_refl).
  - destruct default_curvature; cbn;
      (split; [intros [e [=]] | intros (raw & [=] & _)]).
Qed.

(** X10. A curvature token always wins over the group: an entry whose
    curvature is the value of [c] is loaded with curvature [c] whatever the
    default curvature of its partition. *)
Theorem parse_atom_curvature_token (name : string)
    (items : list (string * yaml)) (default_curvature c : Curvature.t) :
  dict_lookup items "curvature" = Some (YStr (Curvature.value c)) ->
  exists spec,
    _parse_atom name (YMap items) default_curvature = Ok spec
    /\ AtomSpec.curvature spec = c
    /\ AtomSpec.name spec = name.
Proof.
  intros Hc. unfold _parse_atom, dict_get. rewrite Hc.
  destruct c; cbn; eexists; repeat split; reflexivity.
Qed.

Lemma parse_atom_curvature_token_witness :
  dict_lookup [("curvature", YStr "convex")] "curvature"
  = Some (YStr (Curvature.value Curvature.CONVEX))
  /\ exists spec,
      _parse_atom "a" (YMap [("curvature", YStr "convex")]) Curvature.AFFINE
      = Ok spec
      /\ AtomSpec.curvature spec = Curvature.CONVEX
      /\ AtomSpec.name spec = "a".
Proof.
  split; [reflexivity|].
  apply (parse_atom_curvature_token "a" [("curvature", YStr "convex")]
           Curvature.AFFINE Curvature.CONVEX).
  reflexivity.
Defined.

(** X11. In a loaded catalog every contract is stored under its own name,
    in each of the three partitions, through [get] and in [all_atoms]; and
    a partition holds exactly the names of its group in the document. *)
Theorem load_specs_names (doc : list (string * yaml)) (specs : AtomSpecs.t) :
  load_specs (YMap doc) = Ok specs ->
  (forall n s, AtomSpecs.affine_atoms specs !! n = Some s
               -> AtomSpec.name s = n)
  /\ (forall n s, AtomSpecs.convex_atoms specs !! n = Some s
                  -> AtomSpec.name s = n)
  /\ (forall n s, AtomSpecs.concave_atoms specs !! n = Some s
                  -> AtomSpec.name s = n)
  /\ (forall n s, AtomSpecs.get specs n = Some s -> AtomSpec.name s = n)
  /\ (forall n s, AtomSpecs.all_atoms specs !! n = Some s
                  -> AtomSpec.name s = n)
  /\ (forall n, is_Some (AtomSpecs.affine_atoms specs !! n)
                <-> exists group,
                      dict_get doc "affine_atoms" (YMap []) = YMap group
                      /\ In n (map fst group))
  /\ (forall n, is_Some (AtomSpecs.convex_atoms specs !! n)
                <-> exists group,
                      dict_get doc "convex_atoms" (YMap []) = YMap group
                      /\ In n (map fst group))
  /\ (forall n, is_Some (AtomSpecs.concave_atoms specs !! n)
                <-> exists group,
                      dict_get doc "concave_atoms" (YMap []) = YMap group
                      /\ In n (map fst group)).
Proof.
  unfold load_specs. intros Hload.
  destruct (parse_group doc "affine_atoms" Curvature.AFFINE) as [a|] eqn:Ha;
    [|discriminate].
  destruct (parse_group doc "convex_atoms" Curvature.CONVEX) as [c|] eqn:Hc;
    [|discriminate].
  destruct (parse_group doc "concave_atoms" Curvature.CONCAVE) as [k|] eqn:Hk;
    [|discriminate].
  cbn in Hload. injection Hload as <-.
  apply parse_group_invariant in Ha as [Ha1 Ha2].
  apply parse_group_invariant in Hc as [Hc1 Hc2].
  apply parse_group_invariant in Hk as [Hk1 Hk2].
  unfold AtomSpecs.get, AtomSpecs.all_atoms.
  cbn [AtomSpecs.affine_atoms AtomSpecs.convex_atoms AtomSpecs.concave_atoms].
  split; [exact Ha1|]. split; [exact Hc1|]. split; [exact Hk1|].
  repeat split; try (apply Ha2 || apply Hc2 || apply Hk2);
    try (intros [g Hg]; apply Ha2 || apply Hc2 || apply Hk2; eauto).
  - intros n s.
    destruct (a !! n) eqn:Ea, (c !! n) eqn:Ec, (k !! n) eqn:Ek; cbn;
      intros [= <-]; eauto.
  - intros n s. rewrite !lookup_union.
    destruct (a !! n) eqn:Ea, (c !! n) eqn:Ec, (k !! n) eqn:Ek; cbn;
      intros [= <-]; eauto.
Qed.


Lemma load_specs_names_witness :
  load_specs colliding_doc = Ok colliding_specs
  /\ (forall n s, AtomSpecs.convex_atoms colliding_specs !! n = Some s
                  -> AtomSpec.name s = n)
  /\ (forall n s, AtomSpecs.get colliding_specs n = Some s
                  -> AtomSpec.name s = n).
Proof.
  split; [reflexivity|].
  destruct (load_specs_names
              [("affine_atoms", YMap [("x", YMap [])]);
               ("convex_atoms", YMap [("x", YMap [])])] colliding_specs)
    as (_ & Hconvex & _ & Hget & _).
  - reflexivity.
  - split; [exact Hconvex | exact Hget].
Defined.

(** X12. [get] finds a name exactly when [all_atoms] has it, in every
    catalog, also when a name is in several partitions. *)
Theorem get_all_atoms_presence (specs : AtomSpecs.t) (n : string) :
  is_Some (AtomSpecs.get specs n)
  <-> is_Some (AtomSpecs.all_atoms specs !! n).
Proof.
  unfold AtomSpecs.get, AtomSpecs.all_atoms. rewrite !lookup_union.
  destruct (AtomSpecs.affine_atoms specs !! n),
    (AtomSpecs.convex_atoms specs !! n),
    (AtomSpecs.concave_atoms specs !! n); cbn;
    split; intros [? H]; first [discriminate | eauto].
Qed.

(** X13. [_parse_monotonicity] never raises and recognises exactly the
    three values of [Monotonicity]: every other entry, a string or not,
    gives [None]. *)
Theorem parse_monotonicity_iff (raw : yaml) (m : Monotonicity.t) :
  _parse_monotonicity raw = Some m <-> raw = YStr (monotonicity_value m).
Proof.
  unfold _parse_monotonicity, yaml_eq_str.
  destruct raw as [| | |s| |]; try (split; [discriminate | destruct m; discriminate]).
  repeat match goal with
         | |- context [String.eqb s ?lit] =>
             destruct (String.eqb_spec s lit) as [->|?]
         end; destruct m; cbn; split; intros H; try discriminate;
    try reflexivity; try (injection H as ->; congruence).
Qed.

(** ** The orchestrator *)

(** X14. The scan goes through the lines in order: an exception in a line
    ends it, otherwise the counts that a line leaves are those the next
    lines start from, so the last summary line decides. *)
Theorem scan_lines_app (pre rest : list string) (counts : Z * Z) :
  scan_lines (pre ++ rest) counts
  = exc_bind (scan_lines pre counts) (scan_lines rest).
Proof.
  revert counts. induction pre as [|line pre IH]; intros counts;
    [reflexivity|].
  cbn [app scan_lines].
  destruct (contains "Validation Results:" line); [|apply IH].
  destruct (contains "/" _); [|apply IH].
  destruct (split_ws _) as [|nums toks]; [reflexivity|].
  destruct (unpack_counts (split_char "/" nums)) as [counts'|e];
    cbn [exc_bind]; [apply IH | reflexivity].
Qed.

(** X15. Output without a summary line is no error: when no line of the
    child's output carries the marker, each runner reports the counts 0/0,
    no error, the whole output, and success by the exit code alone. *)
Theorem runner_without_summary (language : string) (rc : Z)
    (stdout stderr : string) :
  quiet_text (stdout +:+ stderr) ->
  completed language rc stdout stderr
  = Ok {| language := language; success := (rc =? 0)%Z;
          run_all.passed := 0; total := 0;
          output := stdout +:+ stderr; error := None |}.
Proof.
  intros Hquiet. unfold completed, parse_summary.
  rewrite scan_lines_without_summary by exact Hquiet. reflexivity.
Qed.

Lemma runner_without_summary_witness :
  quiet_text ("building" +:+ "")
  /\ completed "rust/cvxrust" 101 "building" ""
     = Ok {| language := "rust/cvxrust"; success := false;
             run_all.passed := 0; total := 0;
             output := "building"; error := None |}.
Proof.
  split; [vm_compute; repeat constructor|].
  apply (runner_without_summary "rust/cvxrust" 101 "building" "").
  vm_compute. repeat constructor.
Defined.

Lemma completed_language (lang : string) (rc : Z) (out err : string) :
  language match completed lang rc out err with
           | Ok r => r
           | Raise e => failed lang e
           end = lang.
Proof.
  unfold completed. destruct (parse_summary (out +:+ err)); reflexivity.
Qed.

(** X16. Whatever the order and the repetitions in the requested
    languages, [main] runs each requested backend once, in the order
    python, typescript, rust; [all] requests the three of them; and a
    backend that errors or fails does not stop the others. *)
Theorem main_results_order (w : World) (languages : list string) :
  map language (main_results w languages)
  = map snd
      (List.filter
         (fun b => existsb (String.eqb "all") languages
                   || existsb (String.eqb (fst b)) languages)
         backends).
Proof.
  assert (Hpy : language (run_python_validator (python_proc w))
                = "python/cvxpy").
  { destruct (python_proc w); cbn [run_python_validator];
      first [apply completed_language | reflexivity]. }
  assert (Hts : language (run_typescript_validator (cvxjs_dir w)
                            (cvxjs_dir_exists w) (typescript_proc w))
                = "typescript/cvxjs").
  { unfold run_typescript_validator.
    destruct (cvxjs_dir_exists w); cbn [negb]; [|reflexivity].
    destruct (typescript_proc w);
      first [apply completed_language | reflexivity]. }
  assert (Hrs : language (run_rust_validator (rust_dir w)
                            (rust_dir_exists w) (rust_proc w))
                = "rust/cvxrust").
  { unfold run_rust_validator.
    destruct (rust_dir_exists w); cbn [negb]; [|reflexivity].
    destruct (rust_proc w); first [apply completed_language | reflexivity]. }
  unfold main_results, backends. cbn [List.filter fst].
  destruct (existsb (String.eqb "all") languages); cbn [orb existsb].
  - cbn. rewrite Hpy, Hts, Hrs. reflexivity.
  - destruct (existsb (String.eqb "python") languages),
      (existsb (String.eqb "typescript") languages),
      (existsb (String.eqb "rust") languages);
      cbn; rewrite ?Hpy, ?Hts, ?Hrs; reflexivity.
Qed.

Lemma print_summary_rows_spec (results : list ValidatorResult)
    (all_passed : bool) :
  fst (print_summary_rows results all_passed)
  = map (fun r => (language r, status r, run_all.passed r, total r)) results
  /\ snd (print_summary_rows results all_passed)
     = all_passed
       && forallb (fun r => negb (truthy (error r)) && success r) results.
Proof.
  revert all_passed. induction results as [|r rs IH]; intros all_passed.
  - cbn. rewrite andb_true_r. auto.
  - cbn [print_summary_rows map forallb].
    specialize (IH (if truthy (error r) then false
                    else if negb (success r) then false else all_passed)).
    destruct (print_summary_rows rs _) as [rows final].
    cbn [fst snd] in *. destruct IH as [-> ->]. split; [reflexivity|].
    destruct (truthy (error r)), (success r), all_passed; reflexivity.
Qed.

(** X17. The table of [print_summary] has one row per result, in order,
    with the status ERROR kept apart from FAIL, and its closing line says
    that all validators passed exactly when every row is PASS; for the
    results of [main] that is exactly when the exit status is 0. *)
Theorem print_summary_verdict (w : World) (languages : list string)
    (results : list ValidatorResult) :
  fst (print_summary results)
  = map (fun r => (language r, status r, run_all.passed r, total r)) results
  /\ (snd (print_summary results) = true
      <-> forall r, In r results -> status r = PASS)
  /\ (snd (print_summary (main_results w languages)) = true
      <-> run_all.main w languages = 0).
Proof.
  assert (Hverdict : forall rs,
            snd (print_summary rs) = true
            <-> forall r, In r rs -> status r = PASS).
  { intros rs. unfold print_summary.
    rewrite (proj2 (print_summary_rows_spec rs true)). cbn [andb].
    rewrite forallb_forall. split; intros H r Hin; specialize (H r Hin);
      unfold status in *; destruct (truthy (error r)), (success r);
      first [reflexivity | discriminate]. }
  split; [apply print_summary_rows_spec|]. split; [apply Hverdict|].
  rewrite Hverdict. symmetry. apply main_exit_status.
Qed.

(** X18. A result that carries an error carries nothing else: whenever a
    runner reports an error, the counts are 0/0, the captured output is
    dropped and [success] is false, also when the child had printed a
    well-formed summary line before the line that made the scan raise. *)
Theorem runner_error_zero_counts (w : World) (languages : list string)
    (r : ValidatorResult) :
  In r (main_results w languages) ->
  error r <> None ->
  success r = false /\ run_all.passed r = 0 /\ total r = 0 /\ output r = "".
Proof.
  assert (Hcompleted : forall lang rc out err,
            let r := match completed lang rc out err with
                     | Ok r => r
                     | Raise e => failed lang e
                     end in
            error r <> None ->
            success r = false /\ run_all.passed r = 0 /\ total r = 0
            /\ output r = "").
  { intros lang rc out err. unfold completed.
    destruct (parse_summary (out +:+ err)); cbn; [congruence | auto]. }
  assert (Hpy : let r := run_python_validator (python_proc w) in
                error r <> None ->
                success r = false /\ run_all.passed r = 0 /\ total r = 0
                /\ output r = "").
  { destruct (python_proc w); cbn [run_python_validator];
      first [apply Hcompleted | cbn; auto]. }
  assert (Hts : let r := run_typescript_validator (cvxjs_dir w)
                           (cvxjs_dir_exists w) (typescript_proc w) in
                error r <> None ->
                success r = false /\ run_all.passed r = 0 /\ total r = 0
                /\ output r = "").
  { unfold run_typescript_validator.
    destruct (cvxjs_dir_exists w); cbn [negb]; [|cbn; auto].
    destruct (typescript_proc w); first [apply Hcompleted | cbn; auto]. }
  assert (Hrs : let r := run_rust_validator (rust_dir w)
                           (rust_dir_exists w) (rust_proc w) in
                error r <> None ->
                success r = false /\ run_all.passed r = 0 /\ total r = 0
                /\ output r = "").
  { unfold run_rust_validator.
    destruct (rust_dir_exists w); cbn [negb]; [|cbn; auto].
    destruct (rust_proc w); first [apply Hcompleted | cbn; auto]. }
  cbv zeta in Hpy, Hts, Hrs. unfold main_results.
  repeat match goal with
         | |- context [if ?b then _ else _] => destruct b
         end;
    cbn [app In]; intros Hin;
    repeat (destruct Hin as [<- | Hin];
            [first [exact Hpy | exact Hts | exact Hrs] |]);
    destruct Hin.
Qed.

Lemma runner_error_zero_counts_witness :
  In (run_python_validator (python_proc malformed_summary_world))
     (main_results malformed_summary_world ["python"])
  /\ error (run_python_validator (python_proc malformed_summary_world))
     <> None
  /\ success (run_python_validator (python_proc malformed_summary_world))
     = false
  /\ run_all.passed
       (run_python_validator (python_proc malformed_summary_world)) = 0.
Proof.
  split; [left; reflexivity|].
  split; [vm_compute; discriminate|].
  pose proof (runner_error_zero_counts malformed_summary_world ["python"]
                (run_python_validator (python_proc malformed_summary_world)))
    as H.
  destruct H as (Hs & Hp & _).
  - left. reflexivity.
  - vm_compute. discriminate.
  - split; assumption.
Defined.

(** ** From the validator to the orchestrator *)

(** X19. The scan of the orchestrator finds the summary line of the
    validator in its output: when the lines before and after it do not
    carry the marker, the scan returns exactly the two numbers that
    [print_results] printed, whatever the counts were before. *)
Theorem scan_lines_finds_summary (pre post : list string)
    (n_passed total : nat) (counts : Z * Z) :
  Forall (fun line => contains marker line = false) pre ->
  Forall (fun line => contains marker line = false) post ->
  (String.length (str_of_nat n_passed) <= max_str_digits)%nat ->
  (String.length (str_of_nat total) <= max_str_digits)%nat ->
  run_all.scan_lines (pre ++ summary_line n_passed total :: post) counts
  = Ok (Z.of_nat n_passed, Z.of_nat total).
Proof.
  intros Hpre Hpost Hp Ht.
  rewrite scan_lines_quiet_app by exact Hpre.
  rewrite scan_summary_line by assumption.
  apply scan_lines_without_summary. exact Hpost.
Qed.

Lemma scan_lines_finds_summary_witness :
  Forall (fun line => contains marker line = false) ["Validating..."]
  /\ Forall (fun line => contains marker line = false) ["PASSED (5):"]
  /\ (String.length (str_of_nat 5) <= max_str_digits)%nat
  /\ (String.length (str_of_nat 7) <= max_str_digits)%nat
  /\ run_all.scan_lines
       (["Validating..."] ++ summary_line 5 7 :: ["PASSED (5):"]) (0, 0)
     = Ok (5, 7).
Proof.
  split; [repeat constructor|]. split; [repeat constructor|].
  split; [apply str_of_nat_short; lia|].
  split; [apply str_of_nat_short; lia|].
  apply (scan_lines_finds_summary ["Validating..."] ["PASSED (5):"] 5 7
           (0, 0)).
  - repeat constructor.
  - repeat constructor.
  - apply str_of_nat_short; lia.
  - apply str_of_nat_short; lia.
Defined.

(** X20. The orchestrator run on the cvxpy validator: when neither the
    warnings of the validator nor its standard error carry the marker, the
    Python runner reports no error, the number of passing atoms, the number
    of validated atoms, and success exactly when every atom passed. *)
Theorem orchestrator_reads_validator_report (cvxpy : cp.lib)
    (specs : AtomSpecs.t) (stderr : string) :
  Forall quiet_text (snd (validate_all cvxpy specs)) ->
  quiet_text stderr ->
  run_python_validator
    (Completed (Z.of_nat (validate_cvxpy.main cvxpy specs))
       (main_stdout cvxpy specs) stderr)
  = {| language := "python/cvxpy";
       success :=
         forallb validate_cvxpy.passed (fst (validate_all cvxpy specs));
       run_all.passed :=
         Z.of_nat (length (filter (fun r => validate_cvxpy.passed r = true)
                             (fst (validate_all cvxpy specs))));
       total := Z.of_nat (length (fst (validate_all cvxpy specs)));
       output := main_stdout cvxpy specs +:+ stderr;
       error := None |}.
Proof.
  intros Hwarn Herr.
  pose proof (validate_all_tidy cvxpy specs) as Htidy.
  pose proof (validate_all_length cvxpy specs) as Hlen.
  unfold run_python_validator, completed, validate_cvxpy.main, main_stdout.
  destruct (validate_all cvxpy specs) as [results warnings].
  cbn [fst snd] in *.
  destruct (print_results_shape results Htidy) as [tail [Hshape Htail]].
  set (n_passed := length (filter (fun r => validate_cvxpy.passed r = true)
                             results)) in *.
  assert (Hscan :
    parse_summary
      (stdout_of
         (["Loading CVX-Core specifications...";
           "Loaded " +:+ str_of_nat (size (AtomSpecs.all_atoms specs))
           +:+ " atom specifications";
           nl +:+ "Validating cvxpy implementation..."]
          ++ warnings ++ print_results results) +:+ stderr)
    = Ok (Z.of_nat n_passed, Z.of_nat (length results))).
  { unfold parse_summary. rewrite split_stdout_of, Hshape.
    replace (["Loading CVX-Core specifications...";
              "Loaded " +:+ str_of_nat (size (AtomSpecs.all_atoms specs))
              +:+ " atom specifications";
              nl +:+ "Validating cvxpy implementation..."]
             ++ warnings
             ++ [nl +:+ repeat_char "=" 60;
                 summary_line n_passed (length results)] ++ tail)
      with ((["Loading CVX-Core specifications...";
              "Loaded " +:+ str_of_nat (size (AtomSpecs.all_atoms specs))
              +:+ " atom specifications";
              nl +:+ "Validating cvxpy implementation..."]
             ++ warnings ++ [nl +:+ repeat_char "=" 60])
            ++ summary_line n_passed (length results) :: tail)
      by (rewrite <- !app_assoc; reflexivity).
    rewrite map_app, concat_app, <- app_assoc.
    rewrite scan_lines_quiet_app.
    2: { apply quiet_lines_concat.
         apply Forall_app; split; [|apply Forall_app; split; [exact Hwarn|]].
         - constructor; [vm_compute; repeat constructor|].
           constructor.
           { apply no_V_quiet_text.
             rewrite !all_chars_app,
               (digits_no_V _ (str_of_nat_digits _)). reflexivity. }
           constructor; [vm_compute; repeat constructor | constructor].
         - constructor; [|constructor].
           apply no_V_quiet_text. reflexivity. }
    cbn [map concat].
    rewrite (split_char_no_sep newline (summary_line _ _)).
    2: { unfold summary_line.
         rewrite !all_chars_app.
         rewrite !(digits_not newline _ eq_refl (str_of_nat_digits _)).
         reflexivity. }
    cbn [app].
    assert (Hp : (n_passed <= 22)%nat).
    { subst n_passed. etransitivity; [apply length_filter | exact Hlen]. }
    rewrite scan_summary_line by (apply str_of_nat_short; assumption).
    apply scan_lines_without_summary.
    apply Forall_app; split; [| exact Herr].
    apply quiet_lines_concat.
    eapply Forall_impl; [exact Htail|]. intros line. apply no_V_quiet_text. }
  rewrite Hscan. cbn [exc_bind fst snd].
  rewrite count_failures_zero. reflexivity.
Qed.

Lemma orchestrator_reads_validator_report_witness :
  Forall quiet_text (snd (validate_all convex_lib sum_only_specs))
  /\ quiet_text ""
  /\ run_python_validator
       (Completed (Z.of_nat (validate_cvxpy.main convex_lib sum_only_specs))
          (main_stdout convex_lib sum_only_specs) "")
     = {| language := "python/cvxpy";
          success :=
            forallb validate_cvxpy.passed
              (fst (validate_all convex_lib sum_only_specs));
          run_all.passed :=
            Z.of_nat
              (length (filter (fun r => validate_cvxpy.passed r = true)
                         (fst (validate_all convex_lib sum_only_specs))));
          total :=
            Z.of_nat (length (fst (validate_all convex_lib sum_only_specs)));
          output := main_stdout convex_lib sum_only_specs +:+ "";
          error := None |}.
Proof.
  split; [vm_compute; constructor|].
  split; [vm_compute; repeat constructor|].
  apply (orchestrator_reads_validator_report convex_lib sum_only_specs "").
  - vm_compute. constructor.
  - vm_compute. repeat constructor.
Defined.
